(** * CVHelper: the client-side state and rendering logic, embedded and verified

  The development follows the React sources of the application:

  - [EditableList]     src/components/EditableList.jsx
  - [FileUpload]       src/components/FileUpload.jsx
  - [App]              the application component (handleCvChange, navigateTo,
                       handleSubmit)
  - [EvaluationDetail] src/components/EvaluationDetail.jsx
  - [EvaluationTabs]   src/components/EvaluationTabs.jsx

  JavaScript strings are modelled by [string]: one [ascii] per code unit, so
  the model covers the strings whose code units are below 256.  JavaScript
  numbers are IEEE 754 binary64 values, modelled by the primitive [float]. *)

From Stdlib Require Import String Ascii Bool Arith PeanoNat ZArith Lia List.
From Stdlib Require Import DecimalString.
From Stdlib Require Import Floats.
Import ListNotations.

Local Open Scope string_scope.
Local Open Scope nat_scope.
Local Open Scope list_scope.

(* ===================================================================== *)
(** ** The JavaScript runtime, as far as the sources use it *)
(* ===================================================================== *)

Module Js.

(** An abrupt or a normal completion of a piece of code. *)
Inductive js_error :=
| Error (message : string)
| TypeError (message : string)
| SyntaxError (message : string).

Definition message (e : js_error) : string :=
  match e with
  | Error m | TypeError m | SyntaxError m => m
  end.

Inductive completion (A : Type) :=
| Normal (a : A)
| Throw (e : js_error).
Arguments Normal {A} a.
Arguments Throw {A} e.

(** [s || d] on strings: the empty string is the only falsy string. *)
Definition or_else (s d : string) : string :=
  if String.eqb s "" then d else s.

(** WhiteSpace and LineTerminator code units below 256:
    TAB, LF, VT, FF, CR, SP and NBSP. *)
Definition is_white_space (c : ascii) : bool :=
  let n := nat_of_ascii c in
  ((9 <=? n) && (n <=? 13)) || (n =? 32) || (n =? 160).

Fixpoint trimStart (s : string) : string :=
  match s with
  | String c t => if is_white_space c then trimStart t else s
  | EmptyString => EmptyString
  end.

(** Drops the trailing white space: a character is kept when it is not
    white space or when something is kept after it. *)
Fixpoint trimEnd (s : string) : string :=
  match s with
  | EmptyString => EmptyString
  | String c t =>
      match trimEnd t with
      | EmptyString => if is_white_space c then EmptyString else String c EmptyString
      | t' => String c t'
      end
  end.

(** String.prototype.trim *)
Definition trim (s : string) : string := trimEnd (trimStart s).

(** Decimal rendering of an array length inside a template literal. *)
Definition string_of_nat (n : nat) : string :=
  NilEmpty.string_of_uint (Nat.to_uint n).

#[local] Set Warnings "-register-all".

(** A value read out of a JSON text, as far as the code that uses it as a
    message looks at it: whether it is truthy, and the text it converts
    to.  A number is held by the text the number-to-string conversion
    gives for it (404 by 404, a half by 0.5, either zero by 0); an object
    by the names of its members. *)
Inductive json :=
| JNull
| JBool (b : bool)
| JNumber (text : string)
| JString (s : string)
| JArray (items : list json)
| JObject (names : list string).

(** ToBoolean: [null], [false], a zero and the empty string are falsy;
    every array and every object is truthy. *)
Definition ToBoolean (v : json) : bool :=
  match v with
  | JNull => false
  | JBool b => b
  | JNumber text => negb (String.eqb text "0")
  | JString s => negb (String.eqb s "")
  | JArray _ | JObject _ => true
  end.

(** ToString.  An array is joined with commas, a [null] among its
    elements giving the empty text.  An object gives the text of
    [Object.prototype.toString], unless a member of its own named
    toString hides that method: no JSON value can be called, the
    conversion finds no method that returns a primitive, and throws. *)
Fixpoint ToString (v : json) : completion string :=
  match v with
  | JNull => Normal "null"
  | JBool b => Normal (if b then "true" else "false")
  | JNumber text => Normal text
  | JString s => Normal s
  | JArray items =>
      (fix join (l : list json) : completion string :=
         match l with
         | [] => Normal ""
         | x :: t =>
             match (match x with JNull => Normal "" | _ => ToString x end) with
             | Throw e => Throw e
             | Normal first =>
                 match t with
                 | [] => Normal first
                 | _ :: _ =>
                     match join t with
                     | Throw e => Throw e
                     | Normal rest => Normal (first ++ "," ++ rest)%string
                     end
                 end
             end
         end) items
  | JObject names =>
      if existsb (String.eqb "toString") names
      then Throw (TypeError "Cannot convert object to primitive value")
      else Normal "[object Object]"
  end.

End Js.

(* ===================================================================== *)
(** ** JavaScript arrays of strings, with the slots an assignment past the
     end leaves empty *)
(* ===================================================================== *)

Module JsArray.

Inductive slot :=
| Hole                      (* an index with no element *)
| Undefined                 (* an element that is [undefined] *)
| Str (s : string).

Definition array := list slot.

Definition of_strings (l : list string) : array := map Str l.

(** [[...items]]: the iterator visits every index below the length and
    yields [undefined] for a hole. *)
Definition spread (items : array) : array :=
  map (fun x => match x with Hole => Undefined | _ => x end) items.

(** An array index is an integer below 2^32 - 1; a larger integer names an
    ordinary property. *)
Definition is_array_index (index : nat) : bool :=
  (N.of_nat index <? 4294967295)%N.

(** Writes the element at [index]: replaces the element in range; past
    the end the array grows to [index + 1] and the skipped indices stay
    holes. *)
Fixpoint write (a : array) (index : nat) (value : slot) : array :=
  match a, index with
  | [], 0 => [value]
  | [], S i => Hole :: write [] i value
  | _ :: t, 0 => value :: t
  | x :: t, S i => x :: write t i value
  end.

(** [a[index] = value]: the element is written when [index] is an array
    index.  An index below the length is one, a JavaScript array having at
    most 2^32 - 1 elements.  For any other [index] the assignment sets an
    ordinary property of the array object: the length and the elements
    stay as they are. *)
Definition assign (a : array) (index : nat) (value : slot) : array :=
  if (index <? length a) || is_array_index index
  then write a index value
  else a.

(** [a.filter((x, i) => p x i)], the callback seeing index [i] first:
    holes are skipped, they never reach the callback nor the result. *)
Fixpoint filter_from (p : slot -> nat -> bool) (i : nat) (a : array) : array :=
  match a with
  | [] => []
  | Hole :: t => filter_from p (S i) t
  | x :: t => if p x i then x :: filter_from p (S i) t else filter_from p (S i) t
  end.

Definition filter (p : slot -> nat -> bool) (a : array) : array :=
  filter_from p 0 a.

End JsArray.

(* ===================================================================== *)
(** ** EditableList.jsx *)
(* ===================================================================== *)

Module EditableList.
Import JsArray.

(** The component is stateless: each handler computes the array handed to
    [setItems] from the [items] prop. *)

Definition handleItemChange (items : array) (index : nat) (value : string) : array :=
  let newItems := spread items in
  assign newItems index (Str value).

Definition addItem (items : array) : array :=
  spread items ++ [Str ""].

Definition removeItem (items : array) (index : nat) : array :=
  let newItems := filter (fun _ i => negb (i =? index)) items in
  newItems.

End EditableList.

(* ===================================================================== *)
(** ** The data exchanged between the components and with the service *)
(* ===================================================================== *)

Module Data.

(** A browser [File]: what the picker or a drop hands over. *)
Record File := { name : string; content : string }.

(** One element of the service's [evaluations] array. *)
Record EvaluationResult := {
  job_title : string;
  job_description : string;
  job_url : option string;
  score_and_explanation : string
}.

(** [e.target.files]: [null] or a list of files. *)
Definition files := option (list File).

End Data.

(* ===================================================================== *)
(** ** JSON.stringify on an array of strings *)
(* ===================================================================== *)

Module Stringify.

Definition dquote : ascii := ascii_of_nat 34.
Definition backslash : ascii := ascii_of_nat 92.

Definition hex_digit (n : nat) : ascii :=
  if n <? 10 then ascii_of_nat (48 + n) else ascii_of_nat (87 + n).

(** \u00XX for a code unit below 256 *)
Definition unicode_escape (n : nat) : string :=
  String backslash
    ("u00" ++ String (hex_digit (n / 16)) (String (hex_digit (n mod 16)) "")).

(** QuoteJSONString, one code unit at a time: the two-character escapes
    of backspace, tab, line feed, form feed, carriage return, the quote
    and the backslash; the unicode escape for the other control
    characters; every other code unit as it is. *)
Definition quote_char (c : ascii) : string :=
  let n := nat_of_ascii c in
  if n =? 8 then String backslash "b"
  else if n =? 9 then String backslash "t"
  else if n =? 10 then String backslash "n"
  else if n =? 12 then String backslash "f"
  else if n =? 13 then String backslash "r"
  else if n =? 34 then String backslash (String dquote "")
  else if n =? 92 then String backslash (String backslash "")
  else if n <? 32 then unicode_escape n
  else String c "".

Fixpoint quote_chars (s : string) : string :=
  match s with
  | EmptyString => EmptyString
  | String c t => quote_char c ++ quote_chars t
  end.

Definition quote (s : string) : string :=
  String dquote (quote_chars s ++ String dquote "").

Fixpoint join_comma (l : list string) : string :=
  match l with
  | [] => ""
  | [x] => x
  | x :: t => x ++ "," ++ join_comma t
  end.

(** [JSON.stringify(l)] for an array of strings [l] (no indentation). *)
Definition stringify (l : list string) : string :=
  "[" ++ join_comma (map quote l) ++ "]".

End Stringify.

(* ===================================================================== *)
(** ** The application component: state, handlers, submission *)
(* ===================================================================== *)

Module App.
Import Js Data.

Inductive page := home | settings.
Inductive view := input | results.

(** The [useState] cells of [App].  [cvFile = None] stands for [null]
    and [undefined], which the code only ever tests with [!cvFile]. *)
Record state := {
  cvFile : option File;
  jobUrls : list string;
  jobDescriptions : list string;
  apiKey : string;
  evaluations : list EvaluationResult;
  activeTab : nat;
  loading : bool;
  loadingMessage : string;
  sidebarOpen : bool;
  activePage : page;
  currentView : view
}.

Definition initial : state := {|
  cvFile := None;
  jobUrls := [""];
  jobDescriptions := [""];
  apiKey := "";
  evaluations := [];
  activeTab := 0;
  loading := false;
  loadingMessage := "";
  sidebarOpen := false;
  activePage := home;
  currentView := input
|}.

(** *** The multipart body *)

Inductive entry :=
| FileEntry (f : File)
| StringEntry (s : string).

Definition FormData := list (string * entry).

Definition append (fd : FormData) (key : string) (v : entry) : FormData :=
  fd ++ [(key, v)].

(** [formData.get(key)]: the first entry of that name. *)
Fixpoint get (fd : FormData) (key : string) : option entry :=
  match fd with
  | [] => None
  | (k, v) :: t => if String.eqb k key then Some v else get t key
  end.

(** *** The service's answer

    [response.json()] gives the body of the response.  [Malformed] is a
    body that is no JSON text: the promise rejects.  [JsonNull] is the
    JSON text null.  [Json] is any other body, by the two members the
    handler reads:

    - [detail] is the member of that name, [None] when there is none (the
      read gives [undefined]);
    - [evaluations_field] is typed after the interface of the service, an
      array of results; [None] stands for a body without the member and
      for one where it is falsy ([null], [false], a zero, the empty
      string), which the handler cannot tell apart.

    A number, a string, a boolean or an array as the whole body has
    neither member and is the record with two [None].  A body whose
    [evaluations] is truthy and no array of results (a number, a text, an
    object) is outside this type. *)

Record body := {
  detail : option json;
  evaluations_field : option (list EvaluationResult)
}.

Inductive body_result :=
| Malformed (e : js_error)
| Json (data : body)
| JsonNull.

Inductive fetch_result :=
| Rejected (e : js_error)                       (* no response at all *)
| Response (ok : bool) (b : body_result).

Record request := {
  url : string;
  method : string;
  payload : FormData
}.

(** What the handler cannot see in its own state: the window, the page
    and the network. *)
Record world := {
  innerWidth : Z;
  fileUploadElement : bool;     (* querySelector('.file-upload-section') finds it *)
  fetch : request -> fetch_result
}.

(** *** Effects

    A handler runs on the state of the render that created it and queues
    its writes; it also talks to the toast container, the page, the
    console and the network.  Its meaning is the list of these effects, in
    program order; [run] gives the state after the writes. *)

Inductive dom_op :=
| ScrollIntoView
| ClassListAdd (c : string)
| ClassListRemove (c : string).

Inductive effect :=
| SetCvFile (f : option File)
| SetEvaluations (l : list EvaluationResult)
| SetActiveTab (n : nat)
| SetLoading (b : bool)
| SetLoadingMessage (s : string)
| SetSidebarOpen (b : bool)
| SetActivePage (p : page)
| SetCurrentView (v : view)
| ToastError (msg : string)
| ToastSuccess (msg : string)
| Dom (op : dom_op)
| SetTimeout (op : dom_op) (ms : nat)
| ConsoleError (label : string) (e : js_error)
| Fetch (r : request).

Definition apply (st : state) (e : effect) : state :=
  let '(Build_state cv urls descs key evs tab ld msg side pg vw) := st in
  match e with
  | SetCvFile f => Build_state f urls descs key evs tab ld msg side pg vw
  | SetEvaluations l => Build_state cv urls descs key l tab ld msg side pg vw
  | SetActiveTab n => Build_state cv urls descs key evs n ld msg side pg vw
  | SetLoading b => Build_state cv urls descs key evs tab b msg side pg vw
  | SetLoadingMessage s => Build_state cv urls descs key evs tab ld s side pg vw
  | SetSidebarOpen b => Build_state cv urls descs key evs tab ld msg b pg vw
  | SetActivePage p => Build_state cv urls descs key evs tab ld msg side p vw
  | SetCurrentView v => Build_state cv urls descs key evs tab ld msg side pg v
  | ToastError _ | ToastSuccess _ | Dom _ | SetTimeout _ _
  | ConsoleError _ _ | Fetch _ => st
  end.

Definition run (st : state) (es : list effect) : state :=
  fold_left apply es st.

(** *** Handlers *)


(** [setCvFile(e.target.files[0])]: indexing [null] throws, indexing an
    empty list gives [undefined]. *)
Definition handleCvChange (e_target_files : files) : completion (list effect) :=
  match e_target_files with
  | None => Throw (TypeError "Cannot read properties of null (reading '0')")
  | Some l => Normal [SetCvFile (hd_error l)]
  end.

Definition navigateTo (w : world) (p : page) : list effect :=
  SetActivePage p ::
  (if (innerWidth w <? 768)%Z then [SetSidebarOpen false] else []).

Definition non_blank (s : string) : bool :=
  negb (String.eqb (trim s) "").

(** [v || d], where [v] is read from a member that may be missing. *)
Definition or_text (v : option json) (d : string) : json :=
  match v with
  | Some x => if ToBoolean x then x else JString d
  | None => JString d
  end.

(** [throw new Error(v)]: the constructor converts [v] to the message,
    and what that conversion throws is thrown in place of the error. *)
Definition throw_new_Error {A : Type} (v : json) : completion A :=
  match ToString v with
  | Normal text => Throw (Error text)
  | Throw e => Throw e
  end.

(** The body of the [try] block: its effects and how it completes.  The
    texts of the two [TypeError]s are those of V8. *)
Definition evaluate (w : world) (formData : FormData) : list effect * completion unit :=
  let r := {| url := "http://localhost:8881/evaluate";
              method := "POST";
              payload := formData |} in
  let before := [SetLoadingMessage "Analyzing your resume against job requirements...";
                 Fetch r] in
  match fetch w r with
  | Rejected e => (before, Throw e)
  | Response ok b =>
      if negb ok then
        match b with
        | Malformed e => (before, Throw e)
        | Json errorData =>
            (before, throw_new_Error (or_text (detail errorData) "Failed to evaluate"))
        | JsonNull =>
            (before,
             Throw (TypeError "Cannot read properties of null (reading 'detail')"))
        end
      else
        match b with
        | Malformed e => (before, Throw e)
        | JsonNull =>
            (before,
             Throw (TypeError "Cannot read properties of null (reading 'evaluations')"))
        | Json data =>
            match evaluations_field data with
            | Some evs =>
                (before ++
                 [SetEvaluations evs;
                  SetActiveTab 0;
                  ToastSuccess ("Successfully evaluated "
                                ++ string_of_nat (length evs)
                                ++ " job matches!");
                  SetCurrentView results],
                 Normal tt)
            | None => (before, Normal tt)
            end
        end
  end.

Definition handleSubmit (w : world) (st : state) : list effect :=
  let formData : FormData := [] in
  match cvFile st with
  | None =>
      [ToastError "Please upload your CV file before submitting";
       SetLoading false]
      ++ (if fileUploadElement w
          then [Dom ScrollIntoView;
                Dom (ClassListAdd "validation-error");
                SetTimeout (ClassListRemove "validation-error") 3000]
          else [])
  | Some file =>
      let entering := [SetLoading true;
                       SetLoadingMessage "Preparing your data..."] in
      let formData := append formData "cv" (FileEntry file) in
      let validJobUrls := filter non_blank (jobUrls st) in
      let formData :=
        if 0 <? length validJobUrls
        then append formData "job_urls"
               (StringEntry (Stringify.stringify validJobUrls))
        else formData in
      let validJobDescriptions := filter non_blank (jobDescriptions st) in
      let formData :=
        if 0 <? length validJobDescriptions
        then append formData "job_descriptions"
               (StringEntry (Stringify.stringify validJobDescriptions))
        else formData in
      if (length validJobUrls =? 0) && (length validJobDescriptions =? 0) then
        entering
        ++ [ToastError "Please provide at least one job URL or description";
            SetLoading false]
      else if String.eqb (trim (apiKey st)) "" then
        entering
        ++ [ToastError "API key is required"; SetLoading false]
        ++ navigateTo w settings
      else
        let formData := append formData "api_key" (StringEntry (apiKey st)) in
        let '(tried, outcome) := evaluate w formData in
        entering
        ++ tried
        ++ match outcome with
           | Normal _ => []
           | Throw error =>
               [ConsoleError "Error submitting data:" error;
                ToastError (or_else (message error)
                              "An error occurred during evaluation")]
           end
        ++ [SetLoading false; SetLoadingMessage ""]
  end.

(** The requests a run of effects sends. *)
Definition requests (es : list effect) : list request :=
  flat_map (fun e => match e with Fetch r => [r] | _ => [] end) es.

Definition is_toast (e : effect) : bool :=
  match e with ToastError _ | ToastSuccess _ => true | _ => false end.

(** The user-visible notifications of a run of effects. *)
Definition toasts (es : list effect) : list effect := filter is_toast es.

End App.

(* ===================================================================== *)
(** ** FileUpload.jsx *)
(* ===================================================================== *)

Module FileUpload.
Import Js Data.

Record state := {
  dragActive : bool;
  fileName : string;
  showReminder : bool
}.

Inductive effect :=
| SetDragActive (b : bool)
| SetFileName (s : string)
| SetShowReminder (b : bool).

Definition apply (st : state) (e : effect) : state :=
  match e with
  | SetDragActive b => {| dragActive := b; fileName := fileName st; showReminder := showReminder st |}
  | SetFileName s => {| dragActive := dragActive st; fileName := s; showReminder := showReminder st |}
  | SetShowReminder b => {| dragActive := dragActive st; fileName := fileName st; showReminder := b |}
  end.

Definition run (st : state) (es : list effect) : state := fold_left apply es st.

(** [handleDrag], by the type of the event. *)
Definition handleDrag (e_type : string) : list effect :=
  if String.eqb e_type "dragenter" || String.eqb e_type "dragover"
  then [SetDragActive true]
  else if String.eqb e_type "dragleave" then [SetDragActive false]
  else [].

(** The observer of the class attribute: the reminder shows once the
    section carries the class the parent adds on a missing file. *)
Definition checkForValidationError (has_validation_error : bool) : list effect :=
  if has_validation_error then [SetShowReminder true] else [].

Section Handlers.
(** The [onFileChange] prop: it is handed [e.target.files] and answers
    with the parent's effects, or throws. *)
Context {parent_effects : Type}.
Variable onFileChange : files -> completion parent_effects.

(** A handler's own writes, and the completion of the callback when the
    handler called it. *)
Definition handled := (list effect * option (completion parent_effects))%type.

(** [e.dataTransfer.files && e.dataTransfer.files[0]], then the file is
    passed on in a one-element list. *)
Definition handleDrop (dataTransfer_files : files) : handled :=
  match dataTransfer_files with
  | Some (f :: _) =>
      ([SetDragActive false; SetFileName (name f); SetShowReminder false],
       Some (onFileChange (Some [f])))
  | _ => ([SetDragActive false], None)
  end.

(** [e.target.files && e.target.files[0]], then the event is passed on. *)
Definition handleChange (target_files : files) : handled :=
  match target_files with
  | Some (f :: _) =>
      ([SetFileName (name f); SetShowReminder false],
       Some (onFileChange target_files))
  | _ => ([], None)
  end.

(** [setFileName(''); onFileChange({ target: { files: null } })] *)
Definition clearFile : handled :=
  ([SetFileName ""], Some (onFileChange None)).

End Handlers.

End FileUpload.

(** [<FileUpload onFileChange={handleCvChange} />]: a click on the clear
  button of the file selector, seen from the application.  The result is
  the state of [App] after the click and how the click handler completed. *)
Definition clear (st : App.state) : App.state * Js.completion unit :=
match snd (FileUpload.clearFile App.handleCvChange) with
| Some (Js.Normal es) => (App.run st es, Js.Normal tt)
| Some (Js.Throw e) => (st, Js.Throw e)
| None => (st, Js.Normal tt)
end.

(* ===================================================================== *)
(** ** JSON.parse *)
(* ===================================================================== *)

Module Json.

(** A string of a parsed document: its code units.  An escape of the form
    \uXXXX may denote any 16-bit unit. *)
Definition units := list N.

Definition units_of_string (s : string) : units :=
  map N_of_ascii (list_ascii_of_string s).

(** The values [JSON.parse] builds, and [undefined], which a missing
    property reads as. *)
#[local] Set Warnings "-register-all".
Inductive value :=
| VUndefined
| VNull
| VBool (b : bool)
| VNum (f : float)
| VStr (s : units)
| VArr (elements : list value)
| VObj (members : list (units * value)).

(** *** Numbers: the decimal literal, rounded to the nearest binary64 *)

(** [p / q], for positive [p] and [q], rounded to nearest, ties to even.
    The quotient is computed on at least 55 bits; the remainder tells on
    which side of the half-way point the exact value lies. *)
Definition round_ratio (negative : bool) (p q : Z) : float :=
  let s := Z.max 0 (55 + Z.log2 q - Z.log2 p) in
  let n := (p * 2 ^ s)%Z in
  let m := (n / q)%Z in
  let r := (n mod q)%Z in
  let l := if (r =? 0)%Z then loc_Exact else loc_Inexact (2 * r ?= q)%Z in
  SF2Prim (binary_round_aux prec emax negative m (- s) l).

Definition digit_of (c : ascii) : option Z :=
  let n := nat_of_ascii c in
  if (48 <=? n) && (n <=? 57) then Some (Z.of_nat (n - 48)) else None.

(** Reads the digits at the head of [cs]: their value after [acc], how
    many they are, and the rest. *)
Fixpoint digits (cs : list ascii) (acc : Z) (count : Z) : Z * Z * list ascii :=
  match cs with
  | c :: t =>
      match digit_of c with
      | Some d => digits t (10 * acc + d)%Z (count + 1)%Z
      | None => (acc, count, cs)
      end
  | [] => (acc, count, cs)
  end.

Definition is_char (c : ascii) (n : nat) : bool := nat_of_ascii c =? n.

(** The value of the mantissa [m] (of [nd] digits) times ten to the [e]. *)
Definition decimal (negative : bool) (m nd e : Z) : float :=
  if (m =? 0)%Z then (if negative then neg_zero else zero)
  else if (400 <? e)%Z then (if negative then neg_infinity else infinity)
  else if (e + nd <? -400)%Z then (if negative then neg_zero else zero)
  else if (0 <=? e)%Z then round_ratio negative (m * 10 ^ e) 1
  else round_ratio negative m (10 ^ (- e)).

(** JSONNumber: an optional minus sign; the integer part, a single zero
    or digits that do not start with a zero; an optional fraction, a dot
    and at least one digit; an optional exponent, the letter e in either
    case, an optional sign and at least one digit. *)
Definition number (cs : list ascii) : option float :=
  let '(negative, cs) :=
    match cs with
    | c :: t => if is_char c 45 then (true, t) else (false, cs)
    | [] => (false, cs)
    end in
  let leading_zero :=
    match cs with c :: _ => is_char c 48 | [] => false end in
  let '(int, n_int, cs) := digits cs 0%Z 0%Z in
  if (n_int =? 0)%Z then None
  else if leading_zero && negb (n_int =? 1)%Z then None
  else
    let fraction :=
      match cs with
      | c :: t =>
          if is_char c 46 then
            let '(m, n_frac, rest) := digits t int 0%Z in
            if (n_frac =? 0)%Z then None else Some (m, n_frac, rest)
          else Some (int, 0%Z, cs)
      | [] => Some (int, 0%Z, cs)
      end in
    match fraction with
    | None => None
    | Some (m, n_frac, cs) =>
        let exponent :=
          match cs with
          | [] => Some 0%Z
          | c :: t =>
              if is_char c 101 || is_char c 69 then
                let '(minus, t) :=
                  match t with
                  | c' :: t' =>
                      if is_char c' 45 then (true, t')
                      else if is_char c' 43 then (false, t')
                      else (false, t)
                  | [] => (false, t)
                  end in
                let '(e, n_exp, rest) := digits t 0%Z 0%Z in
                if (n_exp =? 0)%Z then None
                else match rest with
                     | [] => Some (if minus then (- e)%Z else e)
                     | _ :: _ => None
                     end
              else None
          end in
        match exponent with
        | None => None
        | Some e => Some (decimal negative m (n_int + n_frac) (e - n_frac))
        end
    end.

(** *** Tokens *)

Inductive token :=
| TLBrace | TRBrace | TLBracket | TRBracket | TColon | TComma
| TScalar (v : value).

(** Where the scanner is: between tokens, inside a string (its units so
    far, last first), after a backslash, inside the four digits of a
    unicode escape, inside a number (its characters so far, last first),
    inside one of the three literal names. *)
Inductive mode :=
| MStart
| MString (rev_units : list N)
| MEscape (rev_units : list N)
| MUnicode (rev_units : list N) (rev_digits : list N)
| MNumber (rev_chars : list ascii)
| MLiteral (rest : string) (v : value).

Definition is_json_space (c : ascii) : bool :=
  is_char c 9 || is_char c 10 || is_char c 13 || is_char c 32.

Definition is_number_char (c : ascii) : bool :=
  let n := nat_of_ascii c in
  ((48 <=? n) && (n <=? 57)) || (n =? 43) || (n =? 45) || (n =? 46)
  || (n =? 69) || (n =? 101).

Definition hex_value (c : ascii) : option N :=
  let n := nat_of_ascii c in
  if (48 <=? n) && (n <=? 57) then Some (N.of_nat (n - 48))
  else if (65 <=? n) && (n <=? 70) then Some (N.of_nat (n - 55))
  else if (97 <=? n) && (n <=? 102) then Some (N.of_nat (n - 87))
  else None.

(** A character met between two tokens: the mode it leads to and the
    token it is, if it is one. *)
Definition start (c : ascii) : option (mode * list token) :=
  let n := nat_of_ascii c in
  if is_json_space c then Some (MStart, [])
  else if n =? 123 then Some (MStart, [TLBrace])
  else if n =? 125 then Some (MStart, [TRBrace])
  else if n =? 91 then Some (MStart, [TLBracket])
  else if n =? 93 then Some (MStart, [TRBracket])
  else if n =? 58 then Some (MStart, [TColon])
  else if n =? 44 then Some (MStart, [TComma])
  else if n =? 34 then Some (MString [], [])
  else if (n =? 45) || ((48 <=? n) && (n <=? 57)) then Some (MNumber [c], [])
  else if n =? 116 then Some (MLiteral "rue" (VBool true), [])
  else if n =? 102 then Some (MLiteral "alse" (VBool false), [])
  else if n =? 110 then Some (MLiteral "ull" VNull, [])
  else None.

Definition escaped (c : ascii) : option N :=
  let n := nat_of_ascii c in
  if n =? 34 then Some 34%N          (* quote *)
  else if n =? 92 then Some 92%N     (* backslash *)
  else if n =? 47 then Some 47%N     (* solidus *)
  else if n =? 98 then Some 8%N      (* b *)
  else if n =? 102 then Some 12%N    (* f *)
  else if n =? 110 then Some 10%N    (* n *)
  else if n =? 114 then Some 13%N    (* r *)
  else if n =? 116 then Some 9%N     (* t *)
  else None.

(** The scanner: one character at a time; the tokens come out last first. *)
Fixpoint scan (m : mode) (s : string) (rev_tokens : list token) : option (list token) :=
  match s with
  | EmptyString =>
      match m with
      | MStart => Some (rev rev_tokens)
      | MNumber cs =>
          match number (rev cs) with
          | Some f => Some (rev (TScalar (VNum f) :: rev_tokens))
          | None => None
          end
      | _ => None
      end
  | String c t =>
      match m with
      | MStart =>
          match start c with
          | Some (m', toks) => scan m' t (toks ++ rev_tokens)
          | None => None
          end
      | MString us =>
          if is_char c 34 then scan MStart t (TScalar (VStr (rev us)) :: rev_tokens)
          else if is_char c 92 then scan (MEscape us) t rev_tokens
          else if nat_of_ascii c <? 32 then None
          else scan (MString (N_of_ascii c :: us)) t rev_tokens
      | MEscape us =>
          if is_char c 117 then scan (MUnicode us []) t rev_tokens
          else match escaped c with
               | Some u => scan (MString (u :: us)) t rev_tokens
               | None => None
               end
      | MUnicode us ds =>
          match hex_value c with
          | None => None
          | Some d =>
              match ds with
              | [d2; d1; d0] =>
                  scan (MString ((((d0 * 16 + d1) * 16 + d2) * 16 + d)%N :: us))
                    t rev_tokens
              | _ => scan (MUnicode us (d :: ds)) t rev_tokens
              end
          end
      | MNumber cs =>
          if is_number_char c then scan (MNumber (c :: cs)) t rev_tokens
          else
            match number (rev cs), start c with
            | Some f, Some (m', toks) =>
                scan m' t (toks ++ TScalar (VNum f) :: rev_tokens)
            | _, _ => None
            end
      | MLiteral rest v =>
          match rest with
          | String r EmptyString =>
              if Ascii.eqb c r then scan MStart t (TScalar v :: rev_tokens) else None
          | String r rest' =>
              if Ascii.eqb c r then scan (MLiteral rest' v) t rev_tokens else None
          | EmptyString => None
          end
      end
  end.

(** *** The grammar, on tokens *)

(** An open array or object: what it holds so far (last first) and, for
    an object, the key that waits for its value. *)
Inductive frame :=
| FArr (rev_elements : list value)
| FObj (rev_members : list (units * value)) (key : option units).

Inductive expect :=
| EValue           (* a value *)
| EValueOrClose    (* just after an opening bracket *)
| EKeyOrClose      (* just after an opening brace *)
| EKey             (* after a comma inside an object *)
| EColon
| ECommaOrClose    (* after a value inside an array or an object *)
| EDone (v : value).

(** The value [v] is complete: it goes into the innermost open frame, or
    it is the document. *)
Definition complete (v : value) (stack : list frame) : option (list frame * expect) :=
  match stack with
  | [] => Some ([], EDone v)
  | FArr es :: st => Some (FArr (v :: es) :: st, ECommaOrClose)
  | FObj ms (Some k) :: st => Some (FObj ((k, v) :: ms) None :: st, ECommaOrClose)
  | FObj _ None :: _ => None
  end.

Definition step (stack : list frame) (e : expect) (t : token)
  : option (list frame * expect) :=
  match e, t with
  | (EValue | EValueOrClose), TScalar v => complete v stack
  | (EValue | EValueOrClose), TLBracket => Some (FArr [] :: stack, EValueOrClose)
  | (EValue | EValueOrClose), TLBrace => Some (FObj [] None :: stack, EKeyOrClose)
  | (EValueOrClose | ECommaOrClose), TRBracket =>
      match stack with
      | FArr es :: st => complete (VArr (rev es)) st
      | _ => None
      end
  | (EKeyOrClose | ECommaOrClose), TRBrace =>
      match stack with
      | FObj ms None :: st => complete (VObj (rev ms)) st
      | _ => None
      end
  | (EKeyOrClose | EKey), TScalar (VStr k) =>
      match stack with
      | FObj ms None :: st => Some (FObj ms (Some k) :: st, EColon)
      | _ => None
      end
  | EColon, TColon => Some (stack, EValue)
  | ECommaOrClose, TComma =>
      match stack with
      | FArr _ :: _ => Some (stack, EValue)
      | FObj _ _ :: _ => Some (stack, EKey)
      | [] => None
      end
  | _, _ => None
  end.

Fixpoint build (stack : list frame) (e : expect) (ts : list token) : option value :=
  match ts with
  | [] => match e with EDone v => Some v | _ => None end
  | t :: ts' =>
      match step stack e t with
      | Some (stack', e') => build stack' e' ts'
      | None => None
      end
  end.

(** [JSON.parse(text)]: [None] is the SyntaxError it throws. *)
Definition parse (text : string) : option value :=
  match scan MStart text [] with
  | Some ts => build [] EValue ts
  | None => None
  end.

(** *** Reading a value *)

Fixpoint eqb_units (a b : units) : bool :=
  match a, b with
  | [], [] => true
  | x :: a', y :: b' => N.eqb x y && eqb_units a' b'
  | _, _ => false
  end.

(** The member of that name; of two members of one name, the later. *)
Fixpoint lookup (ms : list (units * value)) (key : units) : option value :=
  match ms with
  | [] => None
  | (k, v) :: t =>
      match lookup t key with
      | Some v' => Some v'
      | None => if eqb_units k key then Some v else None
      end
  end.

(** [v.key] for one of the property names the renderer reads, none of
    which a prototype defines: [null] and [undefined] have no properties
    and the access throws. *)
Definition prop (v : value) (key : string) : Js.completion value :=
  match v with
  | VUndefined =>
      Js.Throw (Js.TypeError
        ("Cannot read properties of undefined (reading '" ++ key ++ "')"))
  | VNull =>
      Js.Throw (Js.TypeError
        ("Cannot read properties of null (reading '" ++ key ++ "')"))
  | VObj ms =>
      Js.Normal (match lookup ms (units_of_string key) with
                 | Some x => x
                 | None => VUndefined
                 end)
  | VBool _ | VNum _ | VStr _ | VArr _ => Js.Normal VUndefined
  end.

(** ToBoolean *)
Definition truthy (v : value) : bool :=
  match v with
  | VUndefined | VNull => false
  | VBool b => b
  | VNum f => negb (is_zero f || is_nan f)
  | VStr s => match s with [] => false | _ :: _ => true end
  | VArr _ | VObj _ => true
  end.

End Json.

(* ===================================================================== *)
(** ** EvaluationDetail.jsx *)
(* ===================================================================== *)

Module EvaluationDetail.
Import Js Data Json.

Local Open Scope float_scope.

(** *** The two banding functions *)

Definition getScoreColor (score total : float) : string :=
  let percentage := score / total * 100 in
  if 80 <=? percentage then "score-excellent"
  else if 60 <=? percentage then "score-good"
  else if 40 <=? percentage then "score-average"
  else "score-poor".

Definition getScoreLabel (score total : float) : string :=
  let percentage := score / total * 100 in
  if 80 <=? percentage then "Excellent"
  else if 60 <=? percentage then "Good"
  else if 40 <=? percentage then "Average"
  else "Poor".

Local Close Scope float_scope.

(** *** Reading the payload *)

Definition starts_with (p s : string) : bool := String.prefix p s.

Definition fence : string :=
  String (ascii_of_nat 96) (String (ascii_of_nat 96) (String (ascii_of_nat 96) "")).

(** Removes every match of the pattern: at each position the fence
    followed by the word json is tried first, then the bare fence;
    [skip] counts the characters of a match that are still to drop. *)
Fixpoint remove_fences (skip : nat) (s : string) : string :=
  match s with
  | EmptyString => EmptyString
  | String c t =>
      match skip with
      | S k => remove_fences k t
      | 0 =>
          if starts_with (fence ++ "json") s then remove_fences 6 t
          else if starts_with fence s then remove_fences 2 t
          else String c (remove_fences 0 t)
      end
  end.

(** The text handed to the parser. *)
Definition jsonString (score_and_explanation : string) : string :=
  trim (remove_fences 0 score_and_explanation).

(** The [try] block: [scoreData] stays [null] when the parser throws
    (the error goes to the console). *)
Definition scoreData (evaluation : EvaluationResult) : value :=
  match parse (jsonString (score_and_explanation evaluation)) with
  | Some v => v
  | None => VNull
  end.

(** *** What is rendered *)

Record score_card := {
  card_class : string;        (* the class after "category-score" *)
  card_score : value;         (* shown before the maximum *)
  card_max : string;
  card_explanation : value
}.

Record score_details := {
  strokeDashoffset : float;
  circle_text : value;
  label_class : string;       (* the class after "score-label" *)
  label_text : string;
  experience : score_card;
  skills : score_card;
  personality : score_card;
  overall_explanation : value
}.

Inductive evaluation_body :=
| ScoreDetails (d : score_details)
| RawEvaluation (pre : string).      (* the text of the fixed-width block *)

Record detail_view := {
  title : string;
  job_link : option string;          (* the link's target, when there is one *)
  description : string;
  evaluation_body_of : evaluation_body
}.

(** What rendering a component comes to.  [Unmodelled] marks the inputs
    whose rendering goes through a conversion that is not embedded here:
    a score that is a string, an array or an object is turned into a
    number by the runtime's string-to-number rules. *)
Inductive rendering (A : Type) :=
| Rendered (a : A)
| Crashed (e : js_error)
| Unmodelled.
Arguments Rendered {A} a.
Arguments Crashed {A} e.
Arguments Unmodelled {A}.

Definition bind {A B} (r : rendering A) (k : A -> rendering B) : rendering B :=
  match r with
  | Rendered a => k a
  | Crashed e => Crashed e
  | Unmodelled => Unmodelled
  end.

Notation "x <- r ;; k" := (bind r (fun x => k))
  (at level 61, r at next level, right associativity).

Definition of_completion {A} (c : completion A) : rendering A :=
  match c with
  | Normal a => Rendered a
  | Throw e => Crashed e
  end.

(** ToNumber, on the values it is embedded for. *)
Definition to_number (v : value) : rendering float :=
  match v with
  | VNum f => Rendered f
  | VUndefined => Rendered nan
  | VNull => Rendered zero
  | VBool b => Rendered (if b then one else zero)
  | VStr _ | VArr _ | VObj _ => Unmodelled
  end.

(** A value placed between tags: React renders text for strings and
    numbers, nothing for booleans, [null] and [undefined], the elements of
    an array, and throws on any other object. *)
Fixpoint child (v : value) : rendering value :=
  match v with
  | VObj _ =>
      Crashed (Error "Objects are not valid as a React child")
  | VArr l =>
      (fix children (l : list value) : rendering value :=
         match l with
         | [] => Rendered v
         | x :: t => _ <- child x ;; children t
         end) l
  | _ => Rendered v
  end.

Definition card (section : value) (total : float) (max : string)
  : rendering score_card :=
  score <- of_completion (prop section "score") ;;
  n <- to_number score ;;
  explanation <- of_completion (prop section "explanation") ;;
  Rendered {| card_class := getScoreColor n total;
              card_score := score;
              card_max := max;
              card_explanation := explanation |}.

Definition checked (c : score_card) : rendering score_card :=
  _ <- child (card_score c) ;;
  _ <- child (card_explanation c) ;;
  Rendered c.

(** ["score-excellent".replace('score-', '')] and the like *)
Definition without_prefix (p s : string) : string :=
  if starts_with p s then String.substring (String.length p) (String.length s - String.length p) s
  else s.

(** The branch taken when [scoreData] is truthy.  The component first
    evaluates every expression of the markup, top to bottom; React then
    renders the children. *)
#[local] Set Warnings "-inexact-float".
Definition details (data : value) : rendering score_details :=
  overall <- of_completion (prop data "overall_score") ;;
  n <- to_number overall ;;
  experience_section <- of_completion (prop data "experience") ;;
  experience_card <- card experience_section 40 "/40" ;;
  skills_section <- of_completion (prop data "skills") ;;
  skills_card <- card skills_section 40 "/40" ;;
  personality_section <- of_completion (prop data "personality") ;;
  personality_card <- card personality_section 20 "/20" ;;
  summary <- of_completion (prop data "overall_explanation") ;;
  _ <- child overall ;;
  experience_card <- checked experience_card ;;
  skills_card <- checked skills_card ;;
  personality_card <- checked personality_card ;;
  _ <- child summary ;;
  Rendered {| strokeDashoffset := (289.02 - (289.02 * n) / 100)%float;
              circle_text := overall;
              label_class := without_prefix "score-" (getScoreColor n 100);
              label_text := getScoreLabel n 100;
              experience := experience_card;
              skills := skills_card;
              personality := personality_card;
              overall_explanation := summary |}.

Definition EvaluationDetail (evaluation : EvaluationResult) : rendering detail_view :=
  let data := scoreData evaluation in
  let header b :=
    {| title := job_title evaluation;
       job_link := match job_url evaluation with
                   | Some u => if String.eqb u "" then None else Some u
                   | None => None
                   end;
       description := job_description evaluation;
       evaluation_body_of := b |} in
  if truthy data then
    d <- details data ;;
    Rendered (header (ScoreDetails d))
  else
    Rendered (header (RawEvaluation (score_and_explanation evaluation))).

End EvaluationDetail.

(* ===================================================================== *)
(** ** EvaluationTabs.jsx *)
(* ===================================================================== *)

Module EvaluationTabs.
Import Js Data EvaluationDetail.

Record tab_button := {
  tab_label : string;
  active : bool
}.

Record tabs_view := {
  tab_headers : list tab_button;
  tab_content : detail_view
}.

Fixpoint buttons (evaluations : list EvaluationResult) (activeTab index : nat)
  : list tab_button :=
  match evaluations with
  | [] => []
  | evalItem :: rest =>
      {| tab_label := job_title evalItem; active := activeTab =? index |}
      :: buttons rest activeTab (S index)
  end.

(** [None] is the [null] the component returns for an empty collection.
    [evaluations[activeTab]] past the end is [undefined], and reading its
    title throws. *)
Definition EvaluationTabs (evaluations : list EvaluationResult) (activeTab : nat)
  : rendering (option tabs_view) :=
  if length evaluations =? 0 then Rendered None
  else
    match nth_error evaluations activeTab with
    | Some evaluation =>
        bind (EvaluationDetail evaluation)
          (fun content =>
             Rendered (Some {| tab_headers := buttons evaluations activeTab 0;
                               tab_content := content |}))
    | None =>
        Crashed (TypeError
          "Cannot read properties of undefined (reading 'job_title')")
    end.

End EvaluationTabs.

(* ===================================================================== *)
(** ** The words of the specification *)
(* ===================================================================== *)

Module Spec.
Import Js Data App.

(** *** The pre-flight checks *)

Inductive failure := MissingFile | NoJobTarget | MissingCredential.

(** The first check that fails, in the order file, job target,
    credential; [None] when the three pass. *)
Definition preflight (st : state) : option failure :=
  match cvFile st with
  | None => Some MissingFile
  | Some _ =>
      match filter non_blank (jobUrls st), filter non_blank (jobDescriptions st) with
      | [], [] => Some NoJobTarget
      | _, _ =>
          if String.eqb (trim (apiKey st)) "" then Some MissingCredential
          else None
      end
  end.

(** The results state: the collection, the focused tab, the view. *)
Definition shown (st : state) : list EvaluationResult * nat * view :=
  (evaluations st, activeTab st, currentView st).

(** A submission that was sent fails when no response comes, when the
    response is not a success, or when its body cannot be read: it is no
    JSON text, or it is null and has no member to read. *)
Definition failed (r : fetch_result) : bool :=
  match r with
  | Response true (Json _) => false
  | _ => true
  end.

(** *** The filtered lists *)

(** [sel] is [l] with some entries left out, the others in their order. *)
Inductive subsequence {A : Type} : list A -> list A -> Prop :=
| sub_nil : subsequence [] []
| sub_skip (x : A) (sel l : list A) : subsequence sel l -> subsequence sel (x :: l)
| sub_keep (x : A) (sel l : list A) : subsequence sel l -> subsequence (x :: sel) (x :: l).

(** A string is blank when white space is all it holds. *)
Fixpoint blank (s : string) : bool :=
  match s with
  | EmptyString => true
  | String c t => is_white_space c && blank t
  end.

(** [sel] holds exactly the entries of [l] that are not blank, in their
    order: it is a subsequence of [l] without a blank entry, and every
    such subsequence is a subsequence of it. *)
Definition non_blank_entries (l sel : list string) : Prop :=
  subsequence sel l
  /\ Forall (fun s => blank s = false) sel
  /\ (forall sel', subsequence sel' l ->
                   Forall (fun s => blank s = false) sel' ->
                   subsequence sel' sel).

(** The value an array of strings is, as a parsed document. *)
Definition json_array_of (l : list string) : Json.value :=
  Json.VArr (map (fun s => Json.VStr (Json.units_of_string s)) l).

(** The body [fd] carries the list [l] under [key]: no entry of that
    name when the list is empty, else a text that is the JSON array of
    the strings of [l]. *)
Definition carries (fd : FormData) (key : string) (l : list string) : Prop :=
  match l with
  | [] => get fd key = None
  | _ :: _ =>
      exists text, get fd key = Some (StringEntry text)
                   /\ Json.parse text = Some (json_array_of l)
  end.

(** *** The renderer *)

(** The view that shows the payload of [evaluation] as it came. *)
Definition raw_view (evaluation : EvaluationResult) : EvaluationDetail.detail_view :=
  {| EvaluationDetail.title := job_title evaluation;
     EvaluationDetail.job_link :=
       match job_url evaluation with
       | Some u => if String.eqb u "" then None else Some u
       | None => None
       end;
     EvaluationDetail.description := job_description evaluation;
     EvaluationDetail.evaluation_body_of :=
       EvaluationDetail.RawEvaluation (score_and_explanation evaluation) |}.

(** The same result with another payload. *)
Definition with_payload (text : string) (evaluation : EvaluationResult)
  : EvaluationResult :=
  {| job_title := job_title evaluation;
     job_description := job_description evaluation;
     job_url := job_url evaluation;
     score_and_explanation := text |}.

(** *** The bands of the renderer *)

(** The percentage as the renderer computes it, in binary64. *)
Definition percentage (score total : float) : float :=
  (score / total * 100)%float.

(** A whole number as a binary64 value (exact below 2^53). *)
Definition float_of_Z (z : Z) : float :=
  if (z <? 0)%Z then (- of_uint63 (Uint63.of_Z (- z)))%float
  else of_uint63 (Uint63.of_Z z).

Inductive band := Excellent | Good | Average | Poor.

Definition label_of (b : band) : string :=
  match b with
  | Excellent => "Excellent"
  | Good => "Good"
  | Average => "Average"
  | Poor => "Poor"
  end.

Definition class_of (b : band) : string :=
  match b with
  | Excellent => "score-excellent"
  | Good => "score-good"
  | Average => "score-average"
  | Poor => "score-poor"
  end.

(** The band of the whole score [s] out of the whole maximum [m], in
    exact arithmetic: the percentage [100 * s / m] against 80, 60, 40. *)
Definition exact_band (s m : Z) : band :=
  if (80 * m <=? 100 * s)%Z then Excellent
  else if (60 * m <=? 100 * s)%Z then Good
  else if (40 * m <=? 100 * s)%Z then Average
  else Poor.

(** The value of a finite binary64 number, as a whole number times a
    power of two: the signed mantissa and the exponent. *)
Definition exact_value (x : float) : option (Z * Z) :=
  match Prim2SF x with
  | S754_zero _ => Some (0, 0)%Z
  | S754_finite sign mantissa e =>
      Some (if sign then Z.neg mantissa else Z.pos mantissa, e)
  | _ => None
  end.

(** [t <= 100 * s / m] in exact arithmetic, for the numbers [s] and
    [m > 0]: both sides are multiplied by [m] and by a power of two that
    makes them whole. *)
Definition percentage_at_least (t : Z) (s m : float) : option bool :=
  match exact_value s, exact_value m with
  | Some (ns, es), Some (nm, em) =>
      if (0 <? nm)%Z then
        let e := Z.min es em in
        Some (t * nm * 2 ^ (em - e) <=? 100 * ns * 2 ^ (es - e))%Z
      else None
  | _, _ => None
  end.

(** The band of the number [s] out of the number [m > 0], by the exact
    percentage [100 * s / m] against 80, 60, 40. *)
Definition exact_band_of (s m : float) : option band :=
  match percentage_at_least 80 s m, percentage_at_least 60 s m,
        percentage_at_least 40 s m with
  | Some a, Some b, Some c =>
      Some (if a then Excellent else if b then Good else if c then Average else Poor)
  | _, _, _ => None
  end.

(** The number that [k] hundredths are in binary64: the quotient of two
    whole numbers, rounded once, as the number read from the decimal
    text is. *)
Definition hundredths (k : Z) : float := (float_of_Z k / 100)%float.

End Spec.

(* ===================================================================== *)
(** ** Auxiliary definitions of the proofs and the running examples *)
(* ===================================================================== *)

Module Aux.
Import Js Data App Spec.

(** The multipart body the handler builds for a state that holds [file]. *)
Definition formData_of (st : state) (file : File) : FormData :=
  [("cv", FileEntry file)]
  ++ match filter non_blank (jobUrls st) with
     | [] => []
     | urls => [("job_urls", StringEntry (Stringify.stringify urls))]
     end
  ++ match filter non_blank (jobDescriptions st) with
     | [] => []
     | descs => [("job_descriptions", StringEntry (Stringify.stringify descs))]
     end
  ++ [("api_key", StringEntry (apiKey st))].

Definition request_of (st : state) (file : File) : request :=
  {| url := "http://localhost:8881/evaluate";
     method := "POST";
     payload := formData_of st file |}.

(** The error the [catch] block receives for a response that does not
    end in the success branch. *)
Definition caught (ok : bool) (b : body_result) : js_error :=
  match b with
  | Malformed e => e
  | JsonNull =>
      TypeError (if ok then "Cannot read properties of null (reading 'evaluations')"
                 else "Cannot read properties of null (reading 'detail')")
  | Json errorData =>
      match ToString (or_text (detail errorData) "Failed to evaluate") with
      | Normal text => Error text
      | Throw e => e
      end
  end.

(** What follows the request, by the answer to it. *)
Definition after_fetch (r : fetch_result) : list effect :=
  match r with
  | Response true (Json data) =>
      match evaluations_field data with
      | Some evs =>
          [SetEvaluations evs;
           SetActiveTab 0;
           ToastSuccess ("Successfully evaluated " ++ string_of_nat (length evs)
                         ++ " job matches!");
           SetCurrentView results]
      | None => []
      end
  | Response ok b =>
      let error := caught ok b in
      [ConsoleError "Error submitting data:" error;
       ToastError (or_else (message error) "An error occurred during evaluation")]
  | Rejected error =>
      [ConsoleError "Error submitting data:" error;
       ToastError (or_else (message error) "An error occurred during evaluation")]
  end.

(** The tokens between the brackets of such an array. *)
Fixpoint element_tokens (l : list string) : list Json.token :=
  match l with
  | [] => []
  | [x] => [Json.TScalar (Json.VStr (Json.units_of_string x))]
  | x :: t =>
      Json.TScalar (Json.VStr (Json.units_of_string x))
      :: Json.TComma :: element_tokens t
  end.

(** The label and the class of the whole score [s] out of [m] are those
    of its band in exact arithmetic. *)
Definition agrees (m s : Z) : bool :=
  String.eqb (EvaluationDetail.getScoreLabel (float_of_Z s) (float_of_Z m))
    (label_of (exact_band s m))
  && String.eqb (EvaluationDetail.getScoreColor (float_of_Z s) (float_of_Z m))
       (class_of (exact_band s m)).

(** The whole numbers from 0 to [n]. *)
Definition upto (n : nat) : list Z := map Z.of_nat (seq 0 (S n)).

(** For [k] hundredths out of [m]: the band of the number in exact
    arithmetic is the band of the fraction [k / (100 * m)], and the code
    answers that band. *)
Definition agrees_on_hundredths (m k : Z) : bool :=
  match exact_band_of (hundredths k) (float_of_Z m) with
  | Some b =>
      String.eqb (label_of b) (label_of (exact_band k (100 * m)))
      && String.eqb (EvaluationDetail.getScoreLabel (hundredths k) (float_of_Z m))
           (label_of b)
      && String.eqb (EvaluationDetail.getScoreColor (hundredths k) (float_of_Z m))
           (class_of b)
  | None => false
  end.

(** The whole numbers from 0 to [100 * m]. *)
Definition hundredths_upto (m : Z) : list Z :=
  map Z.of_nat (seq 0 (S (Z.to_nat (100 * m)))).

(** *** Running examples *)

Definition cv : File := {| name := "cv.pdf"; content := "%PDF" |}.

Definition engineer : EvaluationResult :=
  {| job_title := "Engineer";
     job_description := "Builds things";
     job_url := Some "http://a";
     score_and_explanation := "not json at all" |}.

Definition analyst : EvaluationResult :=
  {| job_title := "Analyst";
     job_description := "Counts things";
     job_url := None;
     score_and_explanation := "{}" |}.

(** A state in the middle of a session: a file, one job URL between two
    blank rows, a key, old results with the second tab focused. *)
Definition ready : state :=
  {| cvFile := Some cv;
     jobUrls := [""; "http://a"; ""];
     jobDescriptions := [" "];
     apiKey := "sk-1";
     evaluations := [analyst; analyst];
     activeTab := 1;
     loading := false;
     loadingMessage := "";
     sidebarOpen := true;
     activePage := home;
     currentView := results |}.

Definition with_file (f : option File) (st : state) : state :=
  run st [SetCvFile f].

Definition with_jobs (urls descs : list string) (st : state) : state :=
  {| cvFile := cvFile st; jobUrls := urls; jobDescriptions := descs;
     apiKey := apiKey st; evaluations := evaluations st;
     activeTab := activeTab st; loading := loading st;
     loadingMessage := loadingMessage st; sidebarOpen := sidebarOpen st;
     activePage := activePage st; currentView := currentView st |}.

Definition with_key (key : string) (st : state) : state :=
  {| cvFile := cvFile st; jobUrls := jobUrls st;
     jobDescriptions := jobDescriptions st;
     apiKey := key; evaluations := evaluations st;
     activeTab := activeTab st; loading := loading st;
     loadingMessage := loadingMessage st; sidebarOpen := sidebarOpen st;
     activePage := activePage st; currentView := currentView st |}.

(** A name between quotes, and a member of an object. *)
Definition quoted (s : string) : string :=
  String Stringify.dquote (s ++ String Stringify.dquote "").

Definition member (key text : string) : string :=
  quoted key ++ ":" ++ text.

Definition section (score explanation : string) : string :=
  "{" ++ member "score" score ++ ","
      ++ member "explanation" (quoted explanation) ++ "}".

Definition line_feed : string := String (ascii_of_nat 10) "".

(** The fenced payload of the specification's example: 85 overall,
    35, 32 and 18 for the three sections. *)
Definition fenced_payload : string :=
  EvaluationDetail.fence ++ "json" ++ line_feed
  ++ "{" ++ member "overall_score" "85" ++ ","
         ++ member "experience" (section "35" "x") ++ ","
         ++ member "skills" (section "32" "y") ++ ","
         ++ member "personality" (section "18" "z") ++ ","
         ++ member "overall_explanation" (quoted "w") ++ "}"
  ++ line_feed ++ EvaluationDetail.fence.

(** A world whose service gives the same answer to every request. *)
Definition answering (r : fetch_result) : world :=
  {| innerWidth := 1280; fileUploadElement := true; fetch := fun _ => r |}.

End Aux.

(* ===================================================================== *)
(** ** ApiKeyInput: the key field of the settings page *)
(* ===================================================================== *)

Module ApiKeyInput.
Import Js Data.

(** [localStorage]: [getItem] gives [null] for a key that was never set.
    The store is taken to accept every write. *)
Definition storage := string -> option string.

Definition getItem (s : storage) (key : string) : option string := s key.

Definition setItem (s : storage) (key value : string) : storage :=
  fun k => if String.eqb k key then Some value else s k.

Definition empty_storage : storage := fun _ => None.

(** What the component writes: the parent's key through [setApiKey], its
    own [showApiKey], the store. *)
Inductive effect :=
| SetApiKey (value : string)
| SetShowApiKey (b : bool)
| StorageSetItem (key value : string).

Record scene := {
  app : App.state;
  showApiKey : bool;
  localStorage : storage
}.

Definition setApiKey (value : string) (st : App.state) : App.state :=
  {| App.cvFile := App.cvFile st;
     App.jobUrls := App.jobUrls st;
     App.jobDescriptions := App.jobDescriptions st;
     App.apiKey := value;
     App.evaluations := App.evaluations st;
     App.activeTab := App.activeTab st;
     App.loading := App.loading st;
     App.loadingMessage := App.loadingMessage st;
     App.sidebarOpen := App.sidebarOpen st;
     App.activePage := App.activePage st;
     App.currentView := App.currentView st |}.

Definition apply (sc : scene) (e : effect) : scene :=
  match e with
  | SetApiKey v =>
      {| app := setApiKey v (app sc); showApiKey := showApiKey sc;
         localStorage := localStorage sc |}
  | SetShowApiKey b =>
      {| app := app sc; showApiKey := b; localStorage := localStorage sc |}
  | StorageSetItem k v =>
      {| app := app sc; showApiKey := showApiKey sc;
         localStorage := setItem (localStorage sc) k v |}
  end.

Definition run (sc : scene) (es : list effect) : scene := fold_left apply es sc.

(** The effect that runs when the component mounts: the stored key, when
    there is one and it is not the empty string, becomes the key. *)
Definition mount (s : storage) : list effect :=
  match getItem s "apiKey" with
  | Some storedApiKey =>
      if String.eqb storedApiKey "" then [] else [SetApiKey storedApiKey]
  | None => []
  end.

Definition handleApiKeyChange (e_target_value : string) : list effect :=
  let newApiKey := e_target_value in
  [SetApiKey newApiKey; StorageSetItem "apiKey" newApiKey].

(** The click on the eye button. *)
Definition toggleVisibility (sc : scene) : list effect :=
  [SetShowApiKey (negb (showApiKey sc))].

(** The [type] of the input. *)
Definition input_type (sc : scene) : string :=
  if showApiKey sc then "text" else "password".

(** The application as a page load finds it: the state [App] starts in,
    the key hidden, the store as it was left. *)
Definition reloaded (s : storage) : scene :=
  {| app := App.initial; showApiKey := false; localStorage := s |}.

End ApiKeyInput.

(* ===================================================================== *)
(** ** What the application shows *)
(* ===================================================================== *)

Module AppView.
Import Js Data App.

(** The submit section of the input form. *)
Record submit_section := {
  disabled : bool;
  button_title : string;
  button_text : string;
  hint : bool                 (* the line that asks for the CV *)
}.

Record input_form := {
  url_items : list string;
  description_items : list string;
  submit_of : submit_section
}.

Definition renderInputForm (st : state) : input_form :=
  {| url_items := jobUrls st;
     description_items := jobDescriptions st;
     submit_of :=
       {| disabled := loading st;
          button_title := match cvFile st with
                          | None => "Please upload your CV first"
                          | Some _ => "Submit for evaluation"
                          end;
          button_text := if loading st
                         then or_else (loadingMessage st) "Processing..."
                         else "Evaluate My CV";
          hint := match cvFile st with None => true | Some _ => false end |} |}.

(** The results view, once the tabs component is loaded. *)
Definition renderEvaluationResults (st : state)
  : EvaluationDetail.rendering (option EvaluationTabs.tabs_view) :=
  EvaluationTabs.EvaluationTabs (evaluations st) (activeTab st).

Inductive page_content :=
| SettingsContent (key : string)
| InputFormContent (f : input_form)
| ResultsContent (r : EvaluationDetail.rendering (option EvaluationTabs.tabs_view)).

Definition renderPageContent (st : state) : page_content :=
  match activePage st with
  | settings => SettingsContent (apiKey st)
  | home =>
      match currentView st with
      | input => InputFormContent (renderInputForm st)
      | results => ResultsContent (renderEvaluationResults st)
      end
  end.

(** The heading of the toolbar and whether it shows the settings button. *)
Definition toolbar (st : state) : string * bool :=
  match activePage st with
  | settings => ("Settings", false)
  | home => ("My Job Evaluation", true)
  end.

(** The click on the back button of the results view. *)
Definition back : list effect := [SetCurrentView input].

(** The click on a tab. *)
Definition selectTab (index : nat) : list effect := [SetActiveTab index].

End AppView.

(* ===================================================================== *)
(** ** The file selector inside the application *)
(* ===================================================================== *)

Module FileSelector.
Import Js Data.

(** A handler of the selector, run with [handleCvChange] as its callback:
    the two states after it and how it completed. *)
Definition wire (h : list FileUpload.effect * option (completion (list App.effect)))
  (st : App.state) (fu : FileUpload.state)
  : App.state * FileUpload.state * completion unit :=
  let fu' := FileUpload.run fu (fst h) in
  match snd h with
  | Some (Normal es) => (App.run st es, fu', Normal tt)
  | Some (Throw e) => (st, fu', Throw e)
  | None => (st, fu', Normal tt)
  end.

(** A selection in the picker. *)
Definition pick (fs : files) := wire (FileUpload.handleChange App.handleCvChange fs).

(** A drop on the area. *)
Definition drop (fs : files) := wire (FileUpload.handleDrop App.handleCvChange fs).

End FileSelector.

(* ===================================================================== *)
(** ** Notions the further properties are stated with *)
(* ===================================================================== *)

Module Notions.
Import Js Data App.

(** The part of a run that comes before the handler first waits.  The
    handler is an [async] function: it runs on from the click to the call
    of [fetch] and then waits for the answer; on a path without request
    it runs to its end.  React applies the state updates queued in that
    part, in their order, once the handler has given up control: the
    call of [fetch] itself still happens under the render of the state
    the handler started in. *)
Fixpoint before_await (es : list effect) : list effect :=
  match es with
  | [] => []
  | Fetch r :: _ => [Fetch r]
  | e :: t => e :: before_await t
  end.

(** The state that is rendered when the handler starts to wait. *)
Definition while_waiting (st : state) (es : list effect) : state :=
  run st (before_await es).

(** The four inputs of a submission. *)
Definition inputs (st : state) : option File * list string * list string * string :=
  (cvFile st, jobUrls st, jobDescriptions st, apiKey st).

Definition entry_names (fd : FormData) : list string := map fst fd.

Definition tick : ascii := ascii_of_nat 96.

Fixpoint has_tick (s : string) : bool :=
  match s with
  | EmptyString => false
  | String c t => Ascii.eqb c tick || has_tick t
  end.

(** The fence occurs somewhere in [s]. *)
Fixpoint contains_fence (s : string) : bool :=
  match s with
  | EmptyString => false
  | String _ t => EvaluationDetail.starts_with EvaluationDetail.fence s || contains_fence t
  end.

(** The number of backquotes [s] starts with. *)
Fixpoint lead (s : string) : nat :=
  match s with
  | String c t => if Ascii.eqb c tick then S (lead t) else 0
  | EmptyString => 0
  end.

(** The value the renderer reads out of a payload text. *)
Definition scoreData_of_text (text : string) : Json.value :=
  EvaluationDetail.scoreData
    {| job_title := ""; job_description := ""; job_url := None;
       score_and_explanation := text |}.

(** The buttons shown as active. *)
Definition active_buttons (bs : list EvaluationTabs.tab_button) : nat :=
  length (filter EvaluationTabs.active bs).

(** A section of a score breakdown: a number and a text. *)
Definition is_section (v : Json.value) (score : float) (explanation : Json.units) : Prop :=
  Json.prop v "score" = Normal (Json.VNum score)
  /\ Json.prop v "explanation" = Normal (Json.VStr explanation).

(** The details shown for a breakdown with the overall score [o], the
    three sections and the summary [tw]. *)
#[local] Set Warnings "-inexact-float".
Definition breakdown_view (o s1 s2 s3 : float) (t1 t2 t3 tw : Json.units)
  : EvaluationDetail.score_details :=
  {| EvaluationDetail.strokeDashoffset := (289.02 - (289.02 * o) / 100)%float;
     EvaluationDetail.circle_text := Json.VNum o;
     EvaluationDetail.label_class :=
       EvaluationDetail.without_prefix "score-" (EvaluationDetail.getScoreColor o 100);
     EvaluationDetail.label_text := EvaluationDetail.getScoreLabel o 100;
     EvaluationDetail.experience :=
       {| EvaluationDetail.card_class := EvaluationDetail.getScoreColor s1 40;
          EvaluationDetail.card_score := Json.VNum s1;
          EvaluationDetail.card_max := "/40";
          EvaluationDetail.card_explanation := Json.VStr t1 |};
     EvaluationDetail.skills :=
       {| EvaluationDetail.card_class := EvaluationDetail.getScoreColor s2 40;
          EvaluationDetail.card_score := Json.VNum s2;
          EvaluationDetail.card_max := "/40";
          EvaluationDetail.card_explanation := Json.VStr t2 |};
     EvaluationDetail.personality :=
       {| EvaluationDetail.card_class := EvaluationDetail.getScoreColor s3 20;
          EvaluationDetail.card_score := Json.VNum s3;
          EvaluationDetail.card_max := "/20";
          EvaluationDetail.card_explanation := Json.VStr t3 |};
     EvaluationDetail.overall_explanation := Json.VStr tw |}.

(** The view of [evaluation] with the body [b]. *)
Definition view_with (evaluation : EvaluationResult) (b : EvaluationDetail.evaluation_body)
  : EvaluationDetail.detail_view :=
  {| EvaluationDetail.title := job_title evaluation;
     EvaluationDetail.job_link :=
       match job_url evaluation with
       | Some u => if String.eqb u "" then None else Some u
       | None => None
       end;
     EvaluationDetail.description := job_description evaluation;
     EvaluationDetail.evaluation_body_of := b |}.

End Notions.

(* ===================================================================== *)
(** ** Facts on arrays and on the list editor *)
(* ===================================================================== *)

Module EditableListFacts.
Import JsArray EditableList.

Lemma spread_of_strings (l : list string) : spread (of_strings l) = of_strings l.
Proof.
  unfold spread, of_strings. rewrite map_map. reflexivity.
Qed.

Lemma write_nil (index : nat) (v : slot) :
  write [] index v = repeat Hole index ++ [v].
Proof.
  induction index as [|i IH]; simpl; [reflexivity|]. now rewrite IH.
Qed.

Lemma write_past_end (a : array) (index : nat) (v : slot) :
  length a <= index ->
  write a index v = a ++ repeat Hole (index - length a) ++ [v].
Proof.
  revert index. induction a as [|x t IH]; intros index Hle.
  - simpl. rewrite Nat.sub_0_r. apply write_nil.
  - destruct index as [|i]; simpl in *; [lia|].
    rewrite IH by lia. reflexivity.
Qed.

Lemma write_in_range (a : array) (index : nat) (v : slot) :
  index < length a ->
  write a index v = firstn index a ++ v :: skipn (S index) a.
Proof.
  revert index. induction a as [|x t IH]; intros index Hlt; simpl in Hlt; [lia|].
  destruct index as [|i]; simpl; [reflexivity|].
  rewrite IH by lia. reflexivity.
Qed.

Lemma assign_in_range (a : array) (index : nat) (v : slot) :
  index < length a ->
  assign a index v = firstn index a ++ v :: skipn (S index) a.
Proof.
  intros H. unfold assign.
  replace (index <? length a) with true by (symmetry; now apply Nat.ltb_lt).
  now apply write_in_range.
Qed.

Lemma assign_past_end (a : array) (index : nat) (v : slot) :
  length a <= index ->
  is_array_index index = true ->
  assign a index v = a ++ repeat Hole (index - length a) ++ [v].
Proof.
  intros H I. unfold assign. rewrite I, orb_true_r. now apply write_past_end.
Qed.

(** Past the end and past the array indices nothing is written. *)
Lemma assign_no_index (a : array) (index : nat) (v : slot) :
  length a <= index ->
  is_array_index index = false ->
  assign a index v = a.
Proof.
  intros H I. unfold assign. rewrite I.
  replace (index <? length a) with false by (symmetry; apply Nat.ltb_ge; lia).
  reflexivity.
Qed.

Lemma filter_from_strings_ne (l : list string) (i index : nat) :
  index < i ->
  filter_from (fun _ j => negb (j =? index)) i (of_strings l) = of_strings l.
Proof.
  revert i. induction l as [|s t IH]; intros i Hlt; simpl; [reflexivity|].
  destruct (Nat.eqb_spec i index) as [->|_]; [lia|]. simpl.
  unfold of_strings in IH. rewrite IH by lia. reflexivity.
Qed.

Lemma filter_from_strings_drop (l : list string) (i k : nat) :
  k < length l ->
  filter_from (fun _ j => negb (j =? i + k)) i (of_strings l)
  = of_strings (firstn k l ++ skipn (S k) l).
Proof.
  revert i k. induction l as [|s t IH]; intros i k Hk; simpl in Hk; [lia|].
  destruct k as [|k]; simpl.
  - rewrite Nat.add_0_r, Nat.eqb_refl. simpl.
    apply filter_from_strings_ne. lia.
  - destruct (Nat.eqb_spec i (i + S k)) as [E|_]; [lia|]. simpl.
    replace (i + S k) with (S i + k) by lia.
    unfold of_strings in IH. rewrite IH by lia. reflexivity.
Qed.


(** Within the range an edit replaces one entry and nothing else: the
    editor keeps an array of strings an array of strings. *)
Lemma handleItemChange_in_range (items : list string) (index : nat) (value : string) :
  index < length items ->
  handleItemChange (of_strings items) index value
  = of_strings (firstn index items ++ value :: skipn (S index) items).
Proof.
  intros Hlt. unfold handleItemChange. rewrite spread_of_strings.
  rewrite assign_in_range by (unfold of_strings; now rewrite length_map).
  unfold of_strings. rewrite map_app, map_cons, firstn_map, skipn_map.
  reflexivity.
Qed.

Lemma addItem_strings (items : list string) :
  addItem (of_strings items) = of_strings (items ++ [""]).
Proof.
  unfold addItem. rewrite spread_of_strings. unfold of_strings.
  now rewrite map_app.
Qed.

Lemma nth_error_remove (A : Type) (l : list A) (index i : nat) :
  nth_error (firstn index l ++ skipn (S index) l) i
  = if i <? index then nth_error l i else nth_error l (S i).
Proof.
  revert index i. induction l as [|x t IH]; intros index i.
  - rewrite firstn_nil, skipn_nil. simpl.
    destruct (i <? index); now destruct i.
  - destruct index as [|k].
    + simpl. reflexivity.
    + destruct i as [|j]; [reflexivity|].
      change (nth_error (firstn k t ++ skipn (S k) t) j
              = if j <? k then nth_error t j else nth_error t (S j)).
      apply IH.
Qed.

(** C5, as the specification words it, fails: an edit at the index
    just past the end appends the value. *)
Lemma edit_past_end_changes_sequence :
  handleItemChange (of_strings ["http://a"]) 1 "x"
  = of_strings ["http://a"; "x"]
  /\ handleItemChange (of_strings ["http://a"]) 1 "x" <> of_strings ["http://a"].
Proof.
  split; [reflexivity | discriminate].
Qed.

(** C5, amended: for every sequence of strings and every index greater
    than or equal to its length, [handleItemChange index value] does one
    of two things.  For an index below 2^32 - 1 it is not a no-op: the
    array grows to [index + 1] slots, the entries it had stay in place,
    [value] sits at [index], and the indices in between are holes.  For
    an index of 2^32 - 1 or more the sequence handed to [onChange] has the
    entries and the length of before (the value becomes an ordinary
    property of the array object, which is no entry of the sequence). *)
Theorem edit_past_end_extends (items : list string) (index : nat) (value : string) :
  length items <= index ->
  ((N.of_nat index < 4294967295)%N ->
     handleItemChange (of_strings items) index value
     = of_strings items ++ repeat Hole (index - length items) ++ [Str value]
     /\ length (handleItemChange (of_strings items) index value) = S index
     /\ handleItemChange (of_strings items) index value <> of_strings items)
  /\ ((4294967295 <= N.of_nat index)%N ->
        handleItemChange (of_strings items) index value = of_strings items).
Proof.
  intros Hle. split.
  - intros Hlt.
    assert (E : handleItemChange (of_strings items) index value
                = of_strings items ++ repeat Hole (index - length items) ++ [Str value]).
    { unfold handleItemChange. rewrite spread_of_strings.
      rewrite assign_past_end; unfold of_strings; rewrite ?length_map; auto.
      unfold is_array_index. now apply N.ltb_lt. }
    assert (L : length (handleItemChange (of_strings items) index value) = S index).
    { rewrite E. rewrite !length_app, repeat_length. unfold of_strings.
      rewrite length_map. simpl. lia. }
    repeat split; auto.
    intros C. rewrite C in L. unfold of_strings in L. rewrite length_map in L. lia.
  - intros Hge. unfold handleItemChange. rewrite spread_of_strings.
    apply assign_no_index.
    + unfold of_strings. now rewrite length_map.
    + unfold is_array_index. now apply N.ltb_ge.
Qed.

Lemma edit_past_end_extends_witness :
  handleItemChange (of_strings ["a"; "b"]) 4 "e"
  = [Str "a"; Str "b"; Hole; Hole; Str "e"].
Proof.
  apply (edit_past_end_extends ["a"; "b"] 4 "e"); [simpl; lia | reflexivity].
Defined.

(** C9: for every sequence of strings and every index within it,
    [removeItem index] deletes the entry at that index and nothing else.
    The entries before it keep their index, the entries after it move
    down by one, the length drops by one; removing the only entry leaves
    the empty sequence, with no blank entry put back. *)
Theorem removeItem_deletes_entry (items : list string) (index : nat) :
  index < length items ->
  removeItem (of_strings items) index
  = of_strings (firstn index items ++ skipn (S index) items)
  /\ length (removeItem (of_strings items) index) = length items - 1
  /\ (forall i, i < index ->
        nth_error (removeItem (of_strings items) index) i
        = option_map Str (nth_error items i))
  /\ (forall i, index <= i ->
        nth_error (removeItem (of_strings items) index) i
        = option_map Str (nth_error items (S i)))
  /\ (length items = 1 -> removeItem (of_strings items) index = []).
Proof.
  intros Hlt.
  assert (E : removeItem (of_strings items) index
              = of_strings (firstn index items ++ skipn (S index) items)).
  { unfold removeItem, JsArray.filter.
    exact (filter_from_strings_drop items 0 index Hlt). }
  rewrite E. unfold of_strings.
  split; [reflexivity|]. split; [|split; [|split]].
  - rewrite length_map, length_app, length_firstn, length_skipn. lia.
  - intros i Hi. rewrite nth_error_map, nth_error_remove.
    destruct (Nat.ltb_spec i index); [reflexivity | lia].
  - intros i Hi. rewrite nth_error_map, nth_error_remove.
    destruct (Nat.ltb_spec i index); [lia | reflexivity].
  - intros H1. destruct items as [|x [|y t]]; simpl in *; try lia.
    destruct index; [reflexivity | lia].
Qed.

Lemma removeItem_deletes_entry_witness :
  removeItem (of_strings ["u1"; "u2"; "u3"]) 1 = of_strings ["u1"; "u3"]
  /\ removeItem (of_strings ["only"]) 0 = [].
Proof.
  split.
  - apply (removeItem_deletes_entry ["u1"; "u2"; "u3"] 1). simpl. lia.
  - apply (removeItem_deletes_entry ["only"] 0); simpl; lia.
Defined.

End EditableListFacts.
(* ===================================================================== *)
(** ** Facts on trimming and on the filtered lists *)
(* ===================================================================== *)

Module FilterFacts.
Import Js App Spec.

Lemma trimStart_blank (s : string) : blank s = true -> trimStart s = "".
Proof.
  induction s as [|c t IH]; simpl; [reflexivity|].
  destruct (is_white_space c); simpl; [exact IH | discriminate].
Qed.

Lemma trimStart_not_blank (s : string) :
  blank s = false ->
  exists c t, trimStart s = String c t /\ is_white_space c = false.
Proof.
  induction s as [|c t IH]; simpl; [discriminate|].
  destruct (is_white_space c) eqn:E; simpl; [exact IH|].
  intros _. now exists c, t.
Qed.

Lemma trimEnd_keeps_head (c : ascii) (t : string) :
  is_white_space c = false -> trimEnd (String c t) <> "".
Proof.
  intros E. simpl. rewrite E. destruct (trimEnd t); discriminate.
Qed.

(** The test of the handler, [s.trim() !== ''], holds exactly of the
    strings that are not blank. *)
Lemma non_blank_spec (s : string) : non_blank s = negb (blank s).
Proof.
  unfold non_blank, trim. destruct (blank s) eqn:B.
  - rewrite (trimStart_blank s B). reflexivity.
  - destruct (trimStart_not_blank s B) as (c & t & -> & E).
    simpl negb at 2.
    destruct (String.eqb_spec (trimEnd (String c t)) ""); [|reflexivity].
    now destruct (trimEnd_keeps_head c t E).
Qed.

Lemma subsequence_nil {A} (l : list A) : subsequence [] l.
Proof. induction l; constructor; assumption. Qed.

Lemma subsequence_filter {A} (p : A -> bool) (l : list A) :
  subsequence (filter p l) l.
Proof.
  induction l as [|x l IH]; simpl; [constructor|].
  destruct (p x); [apply sub_keep | apply sub_skip]; assumption.
Qed.

Lemma subsequence_into_filter {A} (p : A -> bool) (sel l : list A) :
  subsequence sel l ->
  Forall (fun x => p x = true) sel ->
  subsequence sel (filter p l).
Proof.
  induction 1 as [|x sel l H IH|x sel l H IH]; intros F; simpl.
  - constructor.
  - destruct (p x); [apply sub_skip|]; apply IH; exact F.
  - inversion F as [|? ? Hx F']; subst. rewrite Hx. apply sub_keep, IH. exact F'.
Qed.

Lemma subsequence_length {A} (sel l : list A) :
  subsequence sel l -> length sel <= length l.
Proof. induction 1; simpl; lia. Qed.

Lemma subsequence_same_length {A} (sel l : list A) :
  subsequence sel l -> length l <= length sel -> sel = l.
Proof.
  induction 1 as [|x sel l H IH|x sel l H IH]; simpl; intros L.
  - reflexivity.
  - apply subsequence_length in H. lia.
  - f_equal. apply IH. lia.
Qed.

(** The list the handler keeps is the list of the entries that are not
    blank, in the sense of the specification. *)
Lemma filter_non_blank_entries (l : list string) :
  non_blank_entries l (filter non_blank l).
Proof.
  unfold non_blank_entries. split; [|split].
  - apply subsequence_filter.
  - apply Forall_forall. intros s Hin. apply filter_In in Hin as [_ Hs].
    rewrite non_blank_spec in Hs. now destruct (blank s).
  - intros sel' Hsub Hall. apply subsequence_into_filter; [exact Hsub|].
    eapply Forall_impl; [|exact Hall]. simpl. intros s Hs.
    rewrite non_blank_spec, Hs. reflexivity.
Qed.

(** There is one such list. *)
Lemma non_blank_entries_unique (l sel1 sel2 : list string) :
  non_blank_entries l sel1 -> non_blank_entries l sel2 -> sel1 = sel2.
Proof.
  intros (S1 & F1 & M1) (S2 & F2 & M2).
  pose proof (M2 sel1 S1 F1) as H12. pose proof (M1 sel2 S2 F2) as H21.
  apply subsequence_same_length; [exact H12|].
  now apply subsequence_length.
Qed.

End FilterFacts.

(* ===================================================================== *)
(** ** The serialized lists read back *)
(* ===================================================================== *)

Module StringifyFacts.
Import Json Stringify Spec Aux.

Lemma append_assoc (a b c : string) : ((a ++ b) ++ c = a ++ (b ++ c))%string.
Proof. induction a as [|x a IH]; simpl; [reflexivity | now rewrite IH]. Qed.

(** The scanner reads the escape of a character back to the character. *)
Lemma scan_quote_char (c : ascii) (us : list N) (t : string) (toks : list token) :
  scan (MString us) (quote_char c ++ t) toks
  = scan (MString (N_of_ascii c :: us)) t toks.
Proof.
  destruct c as [[] [] [] [] [] [] [] []]; reflexivity.
Qed.

Lemma scan_quote_chars (s : string) (us : list N) (t : string) (toks : list token) :
  scan (MString us) (quote_chars s ++ t) toks
  = scan (MString (rev (units_of_string s) ++ us)) t toks.
Proof.
  revert us. induction s as [|c s IH]; intros us; [reflexivity|].
  cbn [quote_chars]. rewrite append_assoc, scan_quote_char, IH.
  unfold units_of_string. cbn [list_ascii_of_string map rev].
  now rewrite <- app_assoc.
Qed.

Lemma scan_quote (s t : string) (toks : list token) :
  scan MStart (quote s ++ t) toks
  = scan MStart t (TScalar (VStr (units_of_string s)) :: toks).
Proof.
  unfold quote. cbn [append]. 
  change (scan MStart (String dquote ((quote_chars s ++ String dquote "") ++ t)) toks)
    with (scan (MString []) ((quote_chars s ++ String dquote "") ++ t) toks).
  rewrite append_assoc, scan_quote_chars, app_nil_r.
  cbn [append].
  change (scan (MString (rev (units_of_string s))) (String dquote t) toks)
    with (scan MStart t (TScalar (VStr (rev (rev (units_of_string s)))) :: toks)).
  now rewrite rev_involutive.
Qed.

Lemma scan_elements (l : list string) (t : string) (toks : list token) :
  scan MStart (join_comma (map quote l) ++ t) toks
  = scan MStart t (rev (element_tokens l) ++ toks).
Proof.
  revert toks. induction l as [|x [|y l] IH]; intros toks.
  - reflexivity.
  - cbn [map join_comma element_tokens rev app]. apply scan_quote.
  - change (join_comma (map quote (x :: y :: l)))
      with (quote x ++ "," ++ join_comma (map quote (y :: l)))%string.
    rewrite !append_assoc, scan_quote.
    change (scan MStart ("," ++ join_comma (map quote (y :: l)) ++ t)
              (TScalar (VStr (units_of_string x)) :: toks))
      with (scan MStart (join_comma (map quote (y :: l)) ++ t)
              (TComma :: TScalar (VStr (units_of_string x)) :: toks)).
    rewrite IH.
    change (element_tokens (x :: y :: l))
      with ([TScalar (VStr (units_of_string x)); TComma] ++ element_tokens (y :: l)).
    rewrite rev_app_distr, <- app_assoc. reflexivity.
Qed.

Lemma scan_stringify (l : list string) :
  scan MStart (stringify l) []
  = Some (TLBracket :: element_tokens l ++ [TRBracket]).
Proof.
  unfold stringify.
  change (scan MStart ("[" ++ join_comma (map quote l) ++ "]") [])
    with (scan MStart (join_comma (map quote l) ++ "]") [TLBracket]).
  rewrite scan_elements.
  change (scan MStart "]" (rev (element_tokens l) ++ [TLBracket]))
    with (Some (rev (TRBracket :: rev (element_tokens l) ++ [TLBracket]))).
  cbn [rev]. rewrite rev_app_distr, rev_involutive. reflexivity.
Qed.

Lemma build_elements (l : list string) (x : string) (es : list value) (e : expect) :
  e = EValue \/ e = EValueOrClose ->
  build [FArr es] e (element_tokens (x :: l) ++ [TRBracket])
  = Some (VArr (rev es
                ++ map (fun s => VStr (units_of_string s)) (x :: l))).
Proof.
  revert x es e. induction l as [|y l IH]; intros x es e He.
  - destruct He as [-> | ->]; cbn; rewrite <- ?app_assoc; reflexivity.
  - change (element_tokens (x :: y :: l) ++ [TRBracket])
      with (TScalar (VStr (units_of_string x)) :: TComma
            :: (element_tokens (y :: l) ++ [TRBracket])).
    assert (E : build [FArr es] e
                  (TScalar (VStr (units_of_string x)) :: TComma
                   :: (element_tokens (y :: l) ++ [TRBracket]))
                = build [FArr (VStr (units_of_string x) :: es)] EValue
                    (element_tokens (y :: l) ++ [TRBracket])).
    { destruct He as [-> | ->]; reflexivity. }
    rewrite E, IH by now left.
    cbn [rev map]. rewrite <- !app_assoc. reflexivity.
Qed.

(** Reading back what [JSON.stringify] writes for an array of strings
    gives the array of these strings. *)
Lemma parse_stringify (l : list string) :
  parse (stringify l) = Some (json_array_of l).
Proof.
  unfold parse. rewrite scan_stringify. destruct l as [|x l]; [reflexivity|].
  change (build [] EValue (TLBracket :: element_tokens (x :: l) ++ [TRBracket]))
    with (build [FArr []] EValueOrClose (element_tokens (x :: l) ++ [TRBracket])).
  rewrite build_elements by now right. reflexivity.
Qed.

End StringifyFacts.

(* ===================================================================== *)
(** ** Facts on the submission *)
(* ===================================================================== *)

Module SubmitFacts.
Import Js Data App Spec Aux.

(** Once the three checks pass, the handler sends one request and goes on
    by the answer. *)
Lemma handleSubmit_sends (w : world) (st : state) (file : File) :
  cvFile st = Some file ->
  preflight st = None ->
  handleSubmit w st
  = [SetLoading true;
     SetLoadingMessage "Preparing your data...";
     SetLoadingMessage "Analyzing your resume against job requirements...";
     Fetch (request_of st file)]
    ++ after_fetch (fetch w (request_of st file))
    ++ [SetLoading false; SetLoadingMessage ""].
Proof.
  intros Hf Hp. unfold preflight in Hp. unfold handleSubmit. rewrite Hf in *.
  unfold request_of, formData_of, evaluate, append.
  destruct (filter non_blank (jobUrls st)) as [|u us];
    destruct (filter non_blank (jobDescriptions st)) as [|d ds];
    try discriminate;
    destruct (String.eqb (trim (apiKey st)) ""); try discriminate;
    cbn [length Nat.ltb Nat.leb Nat.eqb andb app];
    match goal with
    | |- context [fetch w ?r] =>
        destruct (fetch w r) as [e | [|] [e | [dt [evs|]] | ]]
    end; try reflexivity;
    unfold after_fetch, caught, throw_new_Error; cbn [negb detail];
    destruct (ToString (or_text dt "Failed to evaluate")); reflexivity.
Qed.

Lemma handleSubmit_requests (w : world) (st : state) (file : File) :
  cvFile st = Some file ->
  preflight st = None ->
  requests (handleSubmit w st) = [request_of st file].
Proof.
  intros Hf Hp. rewrite (handleSubmit_sends w st file Hf Hp).
  destruct (fetch w (request_of st file)) as [e | [|] [e | [dt [evs|]] | ]];
    reflexivity.
Qed.


(** The run of a submission that passes the checks and is answered by a
    success carrying the list [evs]. *)
Lemma run_success
  (w : world) (st : state) (data : body) (evs : list EvaluationResult) :
  preflight st = None ->
  (forall r, In r (requests (handleSubmit w st)) -> fetch w r = Response true (Json data)) ->
  evaluations_field data = Some evs ->
  evaluations (run st (handleSubmit w st)) = evs
  /\ activeTab (run st (handleSubmit w st)) = 0
  /\ currentView (run st (handleSubmit w st)) = results
  /\ toasts (handleSubmit w st)
     = [ToastSuccess ("Successfully evaluated "
                      ++ string_of_nat (length evs) ++ " job matches!")]
  /\ loading (run st (handleSubmit w st)) = false.
Proof.
  intros Hp Hfetch Hevs.
  destruct (cvFile st) as [file|] eqn:Hf;
    [|unfold preflight in Hp; rewrite Hf in Hp; discriminate].
  assert (Hr : fetch w (request_of st file) = Response true (Json data)).
  { apply Hfetch. rewrite (handleSubmit_requests w st file Hf Hp). now left. }
  rewrite (handleSubmit_sends w st file Hf Hp), Hr.
  unfold after_fetch. rewrite Hevs. destruct st; simpl. repeat split; reflexivity.
Qed.

(** C1: for every starting state, [handleSubmit] checks the file first,
    then the job targets, then the credential.  The first check that
    fails raises one error notification, sends no request and leaves
    [loading] false.  A missing file is detected before [loading] is ever
    set; the two later checks fail after it was set.  Only the blank
    credential changes the page, to the settings; the first two failures
    leave it as it was.  When the three checks pass, one request is
    sent. *)
Theorem preflight_checks (w : world) (st : state) :
  let es := handleSubmit w st in
  let st' := run st es in
  match preflight st with
  | Some MissingFile =>
      toasts es = [ToastError "Please upload your CV file before submitting"]
      /\ requests es = []
      /\ ~ In (SetLoading true) es
      /\ loading st' = false
      /\ activePage st' = activePage st
  | Some NoJobTarget =>
      toasts es = [ToastError "Please provide at least one job URL or description"]
      /\ requests es = []
      /\ hd_error es = Some (SetLoading true)
      /\ loading st' = false
      /\ activePage st' = activePage st
  | Some MissingCredential =>
      toasts es = [ToastError "API key is required"]
      /\ requests es = []
      /\ hd_error es = Some (SetLoading true)
      /\ loading st' = false
      /\ activePage st' = settings
  | None =>
      exists r, requests es = [r]
  end.
Proof.
  cbv zeta.
  destruct (preflight st) as [[| |]|] eqn:Hp.
  - unfold preflight in Hp. unfold handleSubmit.
    destruct (cvFile st) eqn:Hf.
    + destruct (filter non_blank (jobUrls st)), (filter non_blank (jobDescriptions st));
        try discriminate;
        destruct (String.eqb (trim (apiKey st)) ""); discriminate.
    + destruct (fileUploadElement w); destruct st; simpl;
        (repeat split; try reflexivity);
        intros H; repeat (destruct H as [H|H]; [discriminate|]); exact H.
  - unfold preflight in Hp. unfold handleSubmit.
    destruct (cvFile st) eqn:Hf; [|discriminate].
    destruct (filter non_blank (jobUrls st)), (filter non_blank (jobDescriptions st));
      try (destruct (String.eqb (trim (apiKey st)) ""); discriminate).
    destruct st; simpl. repeat split; reflexivity.
  - unfold preflight in Hp. unfold handleSubmit.
    destruct (cvFile st) eqn:Hf; [|discriminate].
    destruct (filter non_blank (jobUrls st)), (filter non_blank (jobDescriptions st));
      try discriminate;
      destruct (String.eqb (trim (apiKey st)) ""); try discriminate;
      unfold navigateTo; destruct (innerWidth w <? 768)%Z;
      destruct st; simpl; repeat split; reflexivity.
  - destruct (cvFile st) as [file|] eqn:Hf.
    + exists (request_of st file). now apply handleSubmit_requests.
    + unfold preflight in Hp. rewrite Hf in Hp. discriminate.
Qed.

(** The checks at work: on the running example with its file taken away a
    blank key and empty job lists do not matter, the missing file is
    reported; with the file and no job target the blank key does not
    matter. *)
Lemma preflight_checks_witness :
  toasts (handleSubmit (answering (Rejected (Error "down")))
            (with_file None (with_jobs [] [] (with_key "" ready))))
  = [ToastError "Please upload your CV file before submitting"]
  /\ toasts (handleSubmit (answering (Rejected (Error "down")))
               (with_jobs [" "] [] (with_key "" ready)))
     = [ToastError "Please provide at least one job URL or description"]
  /\ activePage (run (with_key "  " ready)
                   (handleSubmit (answering (Rejected (Error "down")))
                      (with_key "  " ready)))
     = settings.
Proof.
  split; [|split].
  - apply (preflight_checks (answering (Rejected (Error "down")))
             (with_file None (with_jobs [] [] (with_key "" ready)))).
  - apply (preflight_checks (answering (Rejected (Error "down")))
             (with_jobs [" "] [] (with_key "" ready))).
  - apply (preflight_checks (answering (Rejected (Error "down")))
             (with_key "  " ready)).
Defined.

(** C2: for every state that passes the checks and every successful
    response that carries an evaluation list, the results are that list,
    whatever they were; the focused tab is 0; the view is the results; one
    notification is raised, a success that reports the length of the list;
    and [loading] is false again. *)
Theorem success_replaces_results
  (w : world) (st : state) (data : body) (evs : list EvaluationResult) :
  preflight st = None ->
  (forall r, In r (requests (handleSubmit w st)) -> fetch w r = Response true (Json data)) ->
  evaluations_field data = Some evs ->
  let es := handleSubmit w st in
  let st' := run st es in
  evaluations st' = evs
  /\ activeTab st' = 0
  /\ currentView st' = results
  /\ toasts es = [ToastSuccess ("Successfully evaluated "
                                ++ string_of_nat (length evs) ++ " job matches!")]
  /\ loading st' = false.
Proof.
  intros Hp Hfetch Hevs. cbv zeta.
  exact (run_success w st data evs Hp Hfetch Hevs).
Qed.

Lemma success_replaces_results_witness :
  let w := answering (Response true
                        (Json {| detail := None;
                                 evaluations_field := Some [engineer] |})) in
  evaluations (run ready (handleSubmit w ready)) = [engineer]
  /\ activeTab (run ready (handleSubmit w ready)) = 0
  /\ currentView (run ready (handleSubmit w ready)) = results
  /\ toasts (handleSubmit w ready)
     = [ToastSuccess "Successfully evaluated 1 job matches!"]
  /\ loading (run ready (handleSubmit w ready)) = false.
Proof.
  intros w.
  apply (success_replaces_results w ready
           {| detail := None; evaluations_field := Some [engineer] |} [engineer]).
  - reflexivity.
  - intros r _. reflexivity.
  - reflexivity.
Defined.

(** C3: a submission that fails leaves the results, the focused tab and
    the view as they were, whether it fails at one of the three checks or
    after the request was sent: no response, a response that is not a
    success, or a body that cannot be read. *)
Theorem failure_keeps_results (w : world) (st : state) :
  (preflight st <> None \/
   (forall r, In r (requests (handleSubmit w st)) -> failed (fetch w r) = true)) ->
  shown (run st (handleSubmit w st)) = shown st.
Proof.
  intros H.
  destruct (preflight st) as [f|] eqn:Hp.
  - unfold preflight in Hp. unfold handleSubmit in *.
    destruct (cvFile st) eqn:Hf.
    + destruct (filter non_blank (jobUrls st)), (filter non_blank (jobDescriptions st));
        destruct (String.eqb (trim (apiKey st)) ""); try discriminate;
        simpl; unfold navigateTo; destruct (innerWidth w <? 768)%Z;
        destruct st; reflexivity.
    + destruct (fileUploadElement w); destruct st; reflexivity.
  - destruct H as [H|H]; [congruence|].
    destruct (cvFile st) as [file|] eqn:Hf;
      [|unfold preflight in Hp; rewrite Hf in Hp; discriminate].
    assert (Hr : failed (fetch w (request_of st file)) = true).
    { apply H. rewrite (handleSubmit_requests w st file Hf Hp). now left. }
    rewrite (handleSubmit_sends w st file Hf Hp).
    destruct (fetch w (request_of st file)) as [e | [|] [e | d | ]];
      try discriminate; destruct st; reflexivity.
Qed.

Lemma failure_keeps_results_witness :
  shown (run ready
           (handleSubmit
              (answering (Response false
                            (Json {| detail := Some (JString "quota exceeded");
                                     evaluations_field := Some [engineer] |})))
              ready))
  = ([analyst; analyst], 1, results)
  /\ shown (run (with_key "" ready)
              (handleSubmit (answering (Rejected (Error "down"))) (with_key "" ready)))
     = ([analyst; analyst], 1, results).
Proof.
  split.
  - apply (failure_keeps_results
             (answering (Response false
                           (Json {| detail := Some (JString "quota exceeded");
                                    evaluations_field := Some [engineer] |})))
             ready).
    right. intros r _. reflexivity.
  - apply (failure_keeps_results (answering (Rejected (Error "down")))
             (with_key "" ready)).
    left. discriminate.
Defined.

(** C10, as the specification words it, fails: the body null of a
    successful response has no [evaluations] field, and the submission
    does not end silently.  The read of the field throws inside the [try]
    block and the [catch] block raises an error notification. *)
Lemma ok_null_body_is_reported :
  preflight ready = None
  /\ toasts (handleSubmit (answering (Response true JsonNull)) ready)
     = [ToastError "Cannot read properties of null (reading 'evaluations')"]
  /\ toasts (handleSubmit (answering (Response true JsonNull)) ready) <> [].
Proof.
  split; [reflexivity|]. split; [reflexivity | discriminate].
Qed.

(** C10, amended: a successful response whose body is not null and has no
    [evaluations] field ends the submission silently: no notification,
    the results, the focused tab and the view as they were, [loading]
    false.  A successful response whose body is null, or is no JSON text,
    does not: one error notification is raised, with the message of the
    error thrown by the read (or a fixed text when that message is
    empty); the results, the focused tab and the view stay as they were
    and [loading] is false.  A successful response whose [evaluations] is
    the empty array is a full success: the results become empty, the
    focused tab 0, the view the results, and the notification reports 0
    matches. *)
Theorem ok_response_without_evaluations (w : world) (st : state) (b : body_result) :
  preflight st = None ->
  (forall r, In r (requests (handleSubmit w st)) -> fetch w r = Response true b) ->
  let es := handleSubmit w st in
  let st' := run st es in
  match b with
  | Json data =>
      (evaluations_field data = None ->
         toasts es = [] /\ shown st' = shown st /\ loading st' = false)
      /\ (evaluations_field data = Some [] ->
            evaluations st' = [] /\ activeTab st' = 0 /\ currentView st' = results
            /\ toasts es = [ToastSuccess "Successfully evaluated 0 job matches!"]
            /\ loading st' = false)
  | JsonNull =>
      toasts es
      = [ToastError "Cannot read properties of null (reading 'evaluations')"]
      /\ shown st' = shown st /\ loading st' = false
  | Malformed e =>
      toasts es
      = [ToastError (if String.eqb (message e) ""
                     then "An error occurred during evaluation"
                     else message e)]
      /\ shown st' = shown st /\ loading st' = false
  end.
Proof.
  intros Hp Hfetch. cbv zeta.
  destruct (cvFile st) as [file|] eqn:Hf;
    [|unfold preflight in Hp; rewrite Hf in Hp; discriminate].
  assert (Hr : fetch w (request_of st file) = Response true b).
  { apply Hfetch. rewrite (handleSubmit_requests w st file Hf Hp). now left. }
  destruct b as [e | data | ].
  - rewrite (handleSubmit_sends w st file Hf Hp), Hr.
    destruct st; simpl. repeat split; reflexivity.
  - split.
    + intros Hnone.
      rewrite (handleSubmit_sends w st file Hf Hp), Hr.
      unfold after_fetch. rewrite Hnone. destruct st; simpl. repeat split; reflexivity.
    + intros Hempty.
      exact (run_success w st data [] Hp Hfetch Hempty).
  - rewrite (handleSubmit_sends w st file Hf Hp), Hr.
    destruct st; simpl. repeat split; reflexivity.
Qed.

Lemma ok_response_without_evaluations_witness :
  let silent := answering (Response true
                             (Json {| detail := None; evaluations_field := None |})) in
  let empty := answering (Response true
                            (Json {| detail := None; evaluations_field := Some [] |})) in
  let null := answering (Response true JsonNull) in
  (toasts (handleSubmit silent ready) = []
   /\ shown (run ready (handleSubmit silent ready)) = ([analyst; analyst], 1, results)
   /\ loading (run ready (handleSubmit silent ready)) = false)
  /\ (evaluations (run ready (handleSubmit empty ready)) = []
      /\ activeTab (run ready (handleSubmit empty ready)) = 0
      /\ currentView (run ready (handleSubmit empty ready)) = results
      /\ toasts (handleSubmit empty ready)
         = [ToastSuccess "Successfully evaluated 0 job matches!"]
      /\ loading (run ready (handleSubmit empty ready)) = false)
  /\ (toasts (handleSubmit null ready)
      = [ToastError "Cannot read properties of null (reading 'evaluations')"]
      /\ shown (run ready (handleSubmit null ready)) = ([analyst; analyst], 1, results)
      /\ loading (run ready (handleSubmit null ready)) = false).
Proof.
  intros silent empty null. split; [|split].
  - apply (ok_response_without_evaluations silent ready
             (Json {| detail := None; evaluations_field := None |}));
      [reflexivity | intros r _; reflexivity | reflexivity].
  - apply (ok_response_without_evaluations empty ready
             (Json {| detail := None; evaluations_field := Some [] |}));
      [reflexivity | intros r _; reflexivity | reflexivity].
  - apply (ok_response_without_evaluations null ready JsonNull);
      [reflexivity | intros r _; reflexivity].
Defined.

(** *** The payload *)

Lemma formData_of_job_urls (st : state) (file : File) :
  get (formData_of st file) "job_urls"
  = match filter non_blank (jobUrls st) with
    | [] => None
    | urls => Some (StringEntry (Stringify.stringify urls))
    end.
Proof.
  unfold formData_of.
  destruct (filter non_blank (jobUrls st)), (filter non_blank (jobDescriptions st));
    reflexivity.
Qed.

Lemma formData_of_job_descriptions (st : state) (file : File) :
  get (formData_of st file) "job_descriptions"
  = match filter non_blank (jobDescriptions st) with
    | [] => None
    | descs => Some (StringEntry (Stringify.stringify descs))
    end.
Proof.
  unfold formData_of.
  destruct (filter non_blank (jobUrls st)), (filter non_blank (jobDescriptions st));
    reflexivity.
Qed.

Lemma carries_stringify (fd : FormData) (key : string) (l : list string) :
  get fd key = match l with
               | [] => None
               | x :: t => Some (StringEntry (Stringify.stringify (x :: t)))
               end ->
  carries fd key l.
Proof.
  intros H. destruct l as [|x l]; [exact H|].
  exists (Stringify.stringify (x :: l)). split; [exact H|].
  apply StringifyFacts.parse_stringify.
Qed.

(** C4: the request a submission sends carries, for each of the two
    lists, exactly the entries that are not blank, in their order, as the
    text of a JSON array of strings, and no field at all for a list
    without such an entry.  The job URLs (empty, http://a, empty) are
    written as the bracketed, quoted text of the one URL. *)
Theorem payload_lists (w : world) (st : state) (r : request) :
  In r (requests (handleSubmit w st)) ->
  (exists urls descs,
     non_blank_entries (jobUrls st) urls
     /\ non_blank_entries (jobDescriptions st) descs
     /\ carries (payload r) "job_urls" urls
     /\ carries (payload r) "job_descriptions" descs)
  /\ (jobUrls st = [""; "http://a"; ""] ->
      get (payload r) "job_urls"
      = Some (StringEntry
                ("[" ++ String Stringify.dquote
                          ("http://a" ++ String Stringify.dquote "]")))).
Proof.
  intros Hin.
  assert (Hr : exists file, r = request_of st file) .
  { destruct (preflight st) as [f|] eqn:Hp.
    - exfalso. unfold preflight in Hp. unfold handleSubmit in Hin.
      destruct (cvFile st) eqn:Hf.
      + destruct (filter non_blank (jobUrls st)),
          (filter non_blank (jobDescriptions st));
          destruct (String.eqb (trim (apiKey st)) ""); try discriminate;
          simpl in Hin; unfold navigateTo in Hin;
          destruct (innerWidth w <? 768)%Z; exact Hin.
      + destruct (fileUploadElement w); exact Hin.
    - destruct (cvFile st) as [file|] eqn:Hf;
        [|unfold preflight in Hp; rewrite Hf in Hp; discriminate].
      exists file. rewrite (handleSubmit_requests w st file Hf Hp) in Hin.
      destruct Hin as [<- | []]. reflexivity. }
  destruct Hr as [file ->]. split.
  - exists (filter non_blank (jobUrls st)), (filter non_blank (jobDescriptions st)).
    split; [apply FilterFacts.filter_non_blank_entries|].
    split; [apply FilterFacts.filter_non_blank_entries|].
    split; apply carries_stringify; cbn [payload request_of].
    + apply formData_of_job_urls.
    + apply formData_of_job_descriptions.
  - intros Hurls. cbn [payload request_of].
    rewrite formData_of_job_urls, Hurls. reflexivity.
Qed.

Lemma payload_lists_witness :
  let r := request_of ready cv in
  get (payload r) "job_urls"
  = Some (StringEntry
            ("[" ++ String Stringify.dquote
                      ("http://a" ++ String Stringify.dquote "]")))
  /\ get (payload r) "job_descriptions" = None.
Proof.
  intros r.
  destruct (payload_lists (answering (Rejected (Error "down"))) ready r)
    as [_ Hurls]; [left; reflexivity|].
  split; [apply Hurls; reflexivity | reflexivity].
Defined.

End SubmitFacts.
(* ===================================================================== *)
(** ** Facts on the renderer *)
(* ===================================================================== *)

Module RenderFacts.
Import Js Data Json EvaluationDetail EvaluationTabs Spec Aux.

#[local] Set Warnings "-inexact-float".

(** *** The order of binary64 values *)

Lemma SFcompare_antisym (x y : spec_float) :
  SFcompare y x = option_map CompOpp (SFcompare x y).
Proof.
  destruct x as [sx| sx | | sx mx ex], y as [sy | sy | | sy my ey];
    try (destruct sx); try (destruct sy); try reflexivity;
    simpl; rewrite (Z.compare_antisym ex ey);
    destruct (ex ?= ey)%Z; simpl; try reflexivity;
    rewrite !Pos.compare_cont_spec; simpl;
    rewrite (Pos.compare_antisym mx my);
    destruct (mx ?= my)%positive; reflexivity.
Qed.

(** [x < y] rules out [y <= x]. *)
Lemma ltb_not_leb (x y : float) :
  (x <? y)%float = true -> (y <=? x)%float = false.
Proof.
  rewrite ltb_spec, leb_spec. unfold SFltb, SFleb.
  rewrite (SFcompare_antisym (Prim2SF x) (Prim2SF y)).
  destruct (SFcompare (Prim2SF x) (Prim2SF y)) as [[| |]|];
    simpl; intros H; try discriminate; reflexivity.
Qed.

Lemma label_of_percentage (s m : float) :
  getScoreLabel s m
  = if (80 <=? percentage s m)%float then "Excellent"
    else if (60 <=? percentage s m)%float then "Good"
    else if (40 <=? percentage s m)%float then "Average"
    else "Poor".
Proof. reflexivity. Qed.

Lemma class_of_percentage (s m : float) :
  getScoreColor s m
  = if (80 <=? percentage s m)%float then "score-excellent"
    else if (60 <=? percentage s m)%float then "score-good"
    else if (40 <=? percentage s m)%float then "score-average"
    else "score-poor".
Proof. reflexivity. Qed.

(** Below a positive value is below every value above it. *)
Lemma SF_lt_le (x : spec_float) (ma mb : positive) (ea eb : Z) :
  SFltb x (S754_finite false ma ea) = true ->
  SFleb (S754_finite false ma ea) (S754_finite false mb eb) = true ->
  SFleb (S754_finite false mb eb) x = false.
Proof.
  unfold SFltb, SFleb.
  destruct x as [sx | sx | | sx mx ex]; try destruct sx; simpl;
    try reflexivity; try discriminate.
  rewrite !Pos.compare_cont_spec. simpl.
  destruct (Z.compare_spec ex ea), (Z.compare_spec ea eb), (Z.compare_spec eb ex);
    try discriminate; try reflexivity; try lia;
    destruct (Pos.compare_spec mx ma), (Pos.compare_spec ma mb),
      (Pos.compare_spec mb mx);
    try discriminate; try reflexivity; lia.
Qed.

(** Replaces the three thresholds by their mantissa and exponent. *)
Ltac evaluate_thresholds H :=
  let v40 := eval vm_compute in (Prim2SF 40) in
  let v60 := eval vm_compute in (Prim2SF 60) in
  let v80 := eval vm_compute in (Prim2SF 80) in
  change (Prim2SF 40) with v40 in H |- *;
  change (Prim2SF 60) with v60 in H |- *;
  change (Prim2SF 80) with v80 in H |- *.

Lemma below_40 (p : float) :
  (p <? 40)%float = true ->
  (40 <=? p)%float = false /\ (60 <=? p)%float = false /\ (80 <=? p)%float = false.
Proof.
  intros H. split; [now apply ltb_not_leb|].
  rewrite ltb_spec in H. rewrite !leb_spec. evaluate_thresholds H.
  split; (eapply SF_lt_le; [exact H | reflexivity]).
Qed.

Lemma below_60 (p : float) :
  (p <? 60)%float = true ->
  (60 <=? p)%float = false /\ (80 <=? p)%float = false.
Proof.
  intros H. split; [now apply ltb_not_leb|].
  rewrite ltb_spec in H. rewrite !leb_spec. evaluate_thresholds H.
  eapply SF_lt_le; [exact H | reflexivity].
Qed.

(** *** Whole scores *)

Lemma agrees_100 : forallb (agrees 100) (upto 100) = true.
Proof. vm_compute. reflexivity. Qed.

Lemma agrees_40 : forallb (agrees 40) (upto 40) = true.
Proof. vm_compute. reflexivity. Qed.

Lemma agrees_20 : forallb (agrees 20) (upto 20) = true.
Proof. vm_compute. reflexivity. Qed.

Lemma in_upto (n : nat) (s : Z) : (0 <= s <= Z.of_nat n)%Z -> In s (upto n).
Proof.
  intros H. unfold upto. apply in_map_iff. exists (Z.to_nat s). split; [lia|].
  apply in_seq. lia.
Qed.

Lemma whole_scores (s m : Z) :
  m = 100%Z \/ m = 40%Z \/ m = 20%Z ->
  (0 <= s <= m)%Z ->
  getScoreLabel (float_of_Z s) (float_of_Z m) = label_of (exact_band s m)
  /\ getScoreColor (float_of_Z s) (float_of_Z m) = class_of (exact_band s m).
Proof.
  intros Hm Hs.
  assert (A : agrees m s = true).
  { destruct Hm as [-> | [-> | ->]].
    - exact (proj1 (forallb_forall _ _) agrees_100 s (in_upto 100 s Hs)).
    - exact (proj1 (forallb_forall _ _) agrees_40 s (in_upto 40 s Hs)).
    - exact (proj1 (forallb_forall _ _) agrees_20 s (in_upto 20 s Hs)). }
  unfold agrees in A. apply andb_prop in A as [A1 A2].
  split; now apply String.eqb_eq.
Qed.

(** *** Scores with two decimals *)

Lemma agrees_on_hundredths_100 :
  forallb (agrees_on_hundredths 100) (hundredths_upto 100) = true.
Proof. vm_compute. reflexivity. Qed.

Lemma agrees_on_hundredths_40 :
  forallb (agrees_on_hundredths 40) (hundredths_upto 40) = true.
Proof. vm_compute. reflexivity. Qed.

Lemma agrees_on_hundredths_20 :
  forallb (agrees_on_hundredths 20) (hundredths_upto 20) = true.
Proof. vm_compute. reflexivity. Qed.

Lemma in_hundredths_upto (m k : Z) :
  (0 <= k <= 100 * m)%Z -> In k (hundredths_upto m).
Proof.
  intros H. unfold hundredths_upto. apply in_map_iff.
  exists (Z.to_nat k). split; [lia|]. apply in_seq. lia.
Qed.

Lemma label_of_injective (a b : band) : label_of a = label_of b -> a = b.
Proof. destruct a, b; simpl; intros H; try reflexivity; discriminate. Qed.

Lemma scores_in_hundredths (k m : Z) :
  m = 100%Z \/ m = 40%Z \/ m = 20%Z ->
  (0 <= k <= 100 * m)%Z ->
  exact_band_of (hundredths k) (float_of_Z m) = Some (exact_band k (100 * m))
  /\ getScoreLabel (hundredths k) (float_of_Z m) = label_of (exact_band k (100 * m))
  /\ getScoreColor (hundredths k) (float_of_Z m) = class_of (exact_band k (100 * m)).
Proof.
  intros Hm Hk.
  assert (A : agrees_on_hundredths m k = true).
  { destruct Hm as [-> | [-> | ->]].
    - exact (proj1 (forallb_forall _ _) agrees_on_hundredths_100 k
               (in_hundredths_upto 100 k Hk)).
    - exact (proj1 (forallb_forall _ _) agrees_on_hundredths_40 k
               (in_hundredths_upto 40 k Hk)).
    - exact (proj1 (forallb_forall _ _) agrees_on_hundredths_20 k
               (in_hundredths_upto 20 k Hk)). }
  unfold agrees_on_hundredths in A.
  destruct (exact_band_of (hundredths k) (float_of_Z m)) as [b|]; [|discriminate].
  apply andb_prop in A as [A A3]. apply andb_prop in A as [A1 A2].
  apply String.eqb_eq in A1, A2, A3. apply label_of_injective in A1. subst b.
  repeat split; assumption.
Qed.

(** *** The bands in the score details *)

(** The label and the classes of a breakdown: the overall score is held
    against 100, the experience and the skills against 40, the
    personality against 20. *)
Lemma details_bands
  (data e k p : value) (o s1 s2 s3 : float) (t1 t2 t3 tw : units) :
  prop data "overall_score" = Normal (VNum o) ->
  prop data "experience" = Normal e -> Notions.is_section e s1 t1 ->
  prop data "skills" = Normal k -> Notions.is_section k s2 t2 ->
  prop data "personality" = Normal p -> Notions.is_section p s3 t3 ->
  prop data "overall_explanation" = Normal (VStr tw) ->
  details data = Rendered (Notions.breakdown_view o s1 s2 s3 t1 t2 t3 tw).
Proof.
  intros Ho He [He1 He2] Hk [Hk1 Hk2] Hp [Hp1 Hp2] Hw.
  unfold details, card.
  repeat (first [rewrite Ho | rewrite He | rewrite Hk | rewrite Hp | rewrite Hw
                | rewrite He1 | rewrite He2 | rewrite Hk1 | rewrite Hk2
                | rewrite Hp1 | rewrite Hp2];
          cbn [of_completion bind to_number]).
  reflexivity.
Qed.

(** C8, as the specification words it, fails: the code does not band
    [100 * s / m] but the binary64 number that [s / m * 100] comes to,
    two roundings away from it.  The score 31.999999999999996 out of 40
    is below 80 percent, in the band Good, and the code answers
    Excellent. *)
Lemma rounded_percentage_reaches_80 :
  Prim2SF 31.999999999999996%float = S754_finite false 9007199254740991 (-48)
  /\ percentage_at_least 80 31.999999999999996%float 40%float = Some false
  /\ exact_band_of 31.999999999999996%float 40%float = Some Good
  /\ getScoreLabel 31.999999999999996%float 40%float = "Excellent"
  /\ getScoreColor 31.999999999999996%float 40%float = "score-excellent".
Proof. repeat split; vm_compute; reflexivity. Qed.

(** C8, amended: the label and the class of a score depend on the score
    [s] and the maximum [m] through one number alone, the same way for
    every maximum: Excellent from 80 on, Good from 60 to below 80,
    Average from 40 to below 60, Poor below 40.  That number is the
    binary64 value of [s / m * 100], not the percentage [100 * s / m]
    itself.  The two give the same band for every score of at most two
    decimals between 0 and the maximum 100, 40 or 20, the whole scores
    among them.  In the score details the overall score is held against
    100 and gets the label as text and the band as class; the experience
    and the skills are held against 40 and the personality against 20,
    and get the band as the class of their card, with no label as text.
    85 out of 100 is Excellent, and 35 out of 40 is in the same band. *)
Theorem score_bands (s m : float) :
  let p := percentage s m in
  ((80 <=? p)%float = true ->
     getScoreLabel s m = "Excellent" /\ getScoreColor s m = "score-excellent")
  /\ ((60 <=? p)%float = true -> (p <? 80)%float = true ->
        getScoreLabel s m = "Good" /\ getScoreColor s m = "score-good")
  /\ ((40 <=? p)%float = true -> (p <? 60)%float = true ->
        getScoreLabel s m = "Average" /\ getScoreColor s m = "score-average")
  /\ ((p <? 40)%float = true ->
        getScoreLabel s m = "Poor" /\ getScoreColor s m = "score-poor")
  /\ (forall s2 m2 : float,
        percentage s m = percentage s2 m2 ->
        getScoreLabel s m = getScoreLabel s2 m2
        /\ getScoreColor s m = getScoreColor s2 m2)
  /\ (forall s' m' : Z,
        m' = 100%Z \/ m' = 40%Z \/ m' = 20%Z -> (0 <= s' <= m')%Z ->
        getScoreLabel (float_of_Z s') (float_of_Z m') = label_of (exact_band s' m')
        /\ getScoreColor (float_of_Z s') (float_of_Z m') = class_of (exact_band s' m'))
  /\ (forall k m' : Z,
        m' = 100%Z \/ m' = 40%Z \/ m' = 20%Z -> (0 <= k <= 100 * m')%Z ->
        exact_band_of (hundredths k) (float_of_Z m') = Some (exact_band k (100 * m'))
        /\ getScoreLabel (hundredths k) (float_of_Z m')
           = label_of (exact_band k (100 * m'))
        /\ getScoreColor (hundredths k) (float_of_Z m')
           = class_of (exact_band k (100 * m')))
  /\ (forall (data e k q : value) (o s1 s2 s3 : float) (t1 t2 t3 tw : units),
        prop data "overall_score" = Normal (VNum o) ->
        prop data "experience" = Normal e -> Notions.is_section e s1 t1 ->
        prop data "skills" = Normal k -> Notions.is_section k s2 t2 ->
        prop data "personality" = Normal q -> Notions.is_section q s3 t3 ->
        prop data "overall_explanation" = Normal (VStr tw) ->
        exists d,
          details data = Rendered d
          /\ label_text d = getScoreLabel o 100
          /\ label_class d = without_prefix "score-" (getScoreColor o 100)
          /\ card_class (experience d) = getScoreColor s1 40
          /\ card_class (skills d) = getScoreColor s2 40
          /\ card_class (personality d) = getScoreColor s3 20)
  /\ getScoreLabel 85 100 = "Excellent"
  /\ getScoreLabel 35 40 = "Excellent"
  /\ getScoreColor 35 40 = "score-excellent".
Proof.
  cbv zeta. rewrite label_of_percentage, class_of_percentage.
  split; [|split; [|split; [|split; [|split; [|split; [|split; [|split]]]]]]].
  - intros ->. split; reflexivity.
  - intros H60 H80. apply ltb_not_leb in H80. rewrite H80, H60. split; reflexivity.
  - intros H40 H60. apply below_60 in H60 as [-> ->]. rewrite H40. split; reflexivity.
  - intros H40. apply below_40 in H40 as (-> & -> & ->). split; reflexivity.
  - intros s2 m2 E. rewrite label_of_percentage, class_of_percentage, E.
    split; reflexivity.
  - exact whole_scores.
  - exact scores_in_hundredths.
  - intros data e k q o s1 s2 s3 t1 t2 t3 tw Ho He Se Hk Sk Hq Sq Hw.
    exists (Notions.breakdown_view o s1 s2 s3 t1 t2 t3 tw).
    split; [|repeat split].
    exact (details_bands data e k q o s1 s2 s3 t1 t2 t3 tw Ho He Se Hk Sk Hq Sq Hw).
  - repeat split; reflexivity.
Qed.

Lemma score_bands_witness :
  (getScoreLabel 18 20 = "Excellent" /\ getScoreColor 18 20 = "score-excellent")
  /\ (getScoreLabel 30 40 = "Good" /\ getScoreColor 30 40 = "score-good")
  /\ (getScoreLabel 45 100 = "Average" /\ getScoreColor 45 100 = "score-average")
  /\ (getScoreLabel 7 20 = "Poor" /\ getScoreColor 7 20 = "score-poor")
  /\ (getScoreLabel (float_of_Z 32) (float_of_Z 40) = label_of (exact_band 32 40)
      /\ getScoreColor (float_of_Z 32) (float_of_Z 40) = class_of (exact_band 32 40))
  /\ (exact_band_of (hundredths 3195) (float_of_Z 40) = Some (exact_band 3195 4000)
      /\ getScoreLabel (hundredths 3195) (float_of_Z 40)
         = label_of (exact_band 3195 4000)
      /\ getScoreColor (hundredths 3195) (float_of_Z 40)
         = class_of (exact_band 3195 4000))
  /\ (exists d,
        details (scoreData (with_payload fenced_payload engineer)) = Rendered d
        /\ label_text d = getScoreLabel 85 100
        /\ label_class d = without_prefix "score-" (getScoreColor 85 100)
        /\ card_class (experience d) = getScoreColor 35 40
        /\ card_class (skills d) = getScoreColor 32 40
        /\ card_class (personality d) = getScoreColor 18 20).
Proof.
  split; [|split; [|split; [|split; [|split; [|split]]]]].
  - destruct (score_bands 18 20) as (H & _). apply H. reflexivity.
  - destruct (score_bands 30 40) as (_ & H & _). apply H; reflexivity.
  - destruct (score_bands 45 100) as (_ & _ & H & _). apply H; reflexivity.
  - destruct (score_bands 7 20) as (_ & _ & _ & H & _). apply H. reflexivity.
  - destruct (score_bands 0 1) as (_ & _ & _ & _ & _ & H & _).
    apply H; [right; left; reflexivity | lia].
  - destruct (score_bands 0 1) as (_ & _ & _ & _ & _ & _ & H & _).
    apply H; [right; left; reflexivity | lia].
  - destruct (score_bands 0 1) as (_ & _ & _ & _ & _ & _ & _ & H & _).
    apply (H (scoreData (with_payload fenced_payload engineer))
             (VObj [(units_of_string "score", VNum 35);
                    (units_of_string "explanation", VStr (units_of_string "x"))])
             (VObj [(units_of_string "score", VNum 32);
                    (units_of_string "explanation", VStr (units_of_string "y"))])
             (VObj [(units_of_string "score", VNum 18);
                    (units_of_string "explanation", VStr (units_of_string "z"))])
             85%float 35%float 32%float 18%float
             (units_of_string "x") (units_of_string "y") (units_of_string "z")
             (units_of_string "w"));
      try (split; vm_compute; reflexivity); vm_compute; reflexivity.
Defined.

(** *** Payloads that do not parse *)

Lemma scoreData_unparsed (evaluation : EvaluationResult) :
  parse (jsonString (score_and_explanation evaluation)) = None ->
  scoreData evaluation = VNull.
Proof. unfold scoreData. now intros ->. Qed.

Lemma EvaluationDetail_unparsed (evaluation : EvaluationResult) :
  parse (jsonString (score_and_explanation evaluation)) = None ->
  EvaluationDetail evaluation = Rendered (raw_view evaluation).
Proof.
  intros H. unfold EvaluationDetail. rewrite (scoreData_unparsed evaluation H).
  reflexivity.
Qed.

Lemma buttons_titles (l1 l2 : list EvaluationResult) (activeTab index : nat) :
  map job_title l1 = map job_title l2 ->
  buttons l1 activeTab index = buttons l2 activeTab index.
Proof.
  revert l2 index. induction l1 as [|x l1 IH]; intros [|y l2] index H;
    try discriminate; [reflexivity|].
  simpl in *. injection H as Hx Hl. rewrite Hx. f_equal. now apply IH.
Qed.

Lemma nth_error_elsewhere {A} (before after : list A) (x y : A) (i : nat) :
  i <> length before ->
  nth_error (before ++ x :: after) i = nth_error (before ++ y :: after) i.
Proof.
  revert i. induction before as [|b before IH]; intros [|i] H; simpl in *;
    try reflexivity; try congruence.
  apply IH. congruence.
Qed.

(** The other tabs do not depend on the payload of one result. *)
Lemma tabs_elsewhere (before after : list EvaluationResult)
  (evaluation : EvaluationResult) (text : string) (activeTab : nat) :
  activeTab <> length before ->
  EvaluationTabs (before ++ evaluation :: after) activeTab
  = EvaluationTabs (before ++ with_payload text evaluation :: after) activeTab.
Proof.
  intros H. unfold EvaluationTabs.
  rewrite !length_app. cbn [length].
  rewrite (nth_error_elsewhere before after evaluation
             (with_payload text evaluation) activeTab H).
  rewrite (buttons_titles (before ++ evaluation :: after)
             (before ++ with_payload text evaluation :: after) activeTab 0);
    [reflexivity|].
  rewrite !map_app. reflexivity.
Qed.

Lemma tabs_at (before after : list EvaluationResult)
  (evaluation : EvaluationResult) :
  EvaluationTabs (before ++ evaluation :: after) (length before)
  = bind (EvaluationDetail evaluation)
      (fun content =>
         Rendered (Some {| tab_headers :=
                             buttons (before ++ evaluation :: after) (length before) 0;
                           tab_content := content |})).
Proof.
  unfold EvaluationTabs. rewrite length_app. cbn [length].
  replace (length before + S (length after) =? 0) with false
    by (symmetry; apply Nat.eqb_neq; lia).
  rewrite nth_error_app2, Nat.sub_diag by lia. reflexivity.
Qed.

(** C7: for every result whose payload, once the fence markers are
    removed and the text trimmed, does not parse, the renderer does not
    crash and shows the payload as it came, next to the title, the link
    and the description.  Inside the tabs the failure stays with that
    result: its own tab shows the raw payload under the full strip of
    tab buttons, and every other tab renders as it would had the payload
    been any other text.  The payload (not json at all) is such a text. *)
Theorem unparsed_payload_renders_raw (evaluation : EvaluationResult) :
  parse (jsonString (score_and_explanation evaluation)) = None ->
  EvaluationDetail evaluation = Rendered (raw_view evaluation)
  /\ (forall before after,
        EvaluationTabs (before ++ evaluation :: after) (length before)
        = Rendered (Some {| tab_headers :=
                              buttons (before ++ evaluation :: after) (length before) 0;
                            tab_content := raw_view evaluation |}))
  /\ (forall before after text activeTab,
        activeTab <> length before ->
        EvaluationTabs (before ++ evaluation :: after) activeTab
        = EvaluationTabs (before ++ with_payload text evaluation :: after) activeTab)
  /\ parse (jsonString "not json at all") = None.
Proof.
  intros H. split; [|split; [|split]].
  - now apply EvaluationDetail_unparsed.
  - intros before after. rewrite tabs_at, (EvaluationDetail_unparsed evaluation H).
    reflexivity.
  - intros before after text activeTab Hne. now apply tabs_elsewhere.
  - reflexivity.
Qed.

Lemma unparsed_payload_renders_raw_witness :
  EvaluationDetail engineer
  = Rendered {| title := "Engineer";
                job_link := Some "http://a";
                description := "Builds things";
                evaluation_body_of := RawEvaluation "not json at all" |}.
Proof.
  apply (unparsed_payload_renders_raw engineer). reflexivity.
Defined.

(** Where the claim ends: a payload that parses to a truthy value
    without the sections of a score breakdown is not a parse failure, and
    reading the score of a missing section throws. *)
Example parsed_without_sections_crashes :
  parse (jsonString "{}") = Some (VObj [])
  /\ EvaluationDetail analyst
     = Crashed (TypeError "Cannot read properties of undefined (reading 'score')").
Proof. split; reflexivity. Qed.

(** The example of the specification: the fenced payload is read, its
    overall score is labelled Excellent and its experience score, 35 out
    of 40, falls in the same band. *)
Example fenced_payload_rendered :
  exists d,
    EvaluationDetail (with_payload fenced_payload engineer)
    = Rendered {| title := "Engineer";
                  job_link := Some "http://a";
                  description := "Builds things";
                  evaluation_body_of := ScoreDetails d |}
    /\ circle_text d = VNum 85
    /\ label_text d = "Excellent"
    /\ label_class d = "excellent"
    /\ card_class (experience d) = "score-excellent"
    /\ card_score (experience d) = VNum 35
    /\ card_class (skills d) = "score-excellent"
    /\ card_class (personality d) = "score-excellent".
Proof.
  eexists. split; [vm_compute; reflexivity|]. repeat split; reflexivity.
Qed.

End RenderFacts.
(* ===================================================================== *)
(** ** Facts on the file selector *)
(* ===================================================================== *)

Module FileSelectorFacts.
Import Js Data App Spec Aux.

(** A submission from the state the application starts in stops at the
    file check. *)
Example initial_submit_misses_file (w : world) :
  toasts (handleSubmit w initial)
  = [ToastError "Please upload your CV file before submitting"].
Proof. destruct w as [width [|] srv]; reflexivity. Qed.

(** Choosing a file stores it. *)
Lemma handleChange_stores (f : File) (rest : list File) :
  FileUpload.handleChange handleCvChange (Some (f :: rest))
  = ([FileUpload.SetFileName (name f); FileUpload.SetShowReminder false],
     Some (Normal [SetCvFile (Some f)])).
Proof. reflexivity. Qed.

(** The clear button: the callback throws before it writes anything, for
    every state of the application. *)
Lemma clear_throws (st : state) :
  clear st
  = (st, Throw (TypeError "Cannot read properties of null (reading '0')")).
Proof. reflexivity. Qed.

(** The selector itself forgets the name of the file. *)
Lemma clearFile_resets_name (fu : FileUpload.state) :
  FileUpload.fileName
    (FileUpload.run fu (fst (FileUpload.clearFile handleCvChange))) = "".
Proof. reflexivity. Qed.

(** C6, on the code: with a file chosen, the click on the clear button
    ends in a TypeError and the application still holds the file; the
    submission that follows passes the file check and sets [loading]. *)
Theorem clear_keeps_file :
  snd (clear ready)
  = Throw (TypeError "Cannot read properties of null (reading '0')")
  /\ cvFile (fst (clear ready)) = Some cv
  /\ preflight (fst (clear ready)) <> Some MissingFile
  /\ toasts (handleSubmit (answering (Rejected (Error "down")))
               (with_jobs [] [] (fst (clear ready))))
     = [ToastError "Please provide at least one job URL or description"].
Proof.
  repeat split; try reflexivity. discriminate.
Qed.

End FileSelectorFacts.
(* ===================================================================== *)
(** ** Further facts on the list editor *)
(* ===================================================================== *)

Module EditorFacts.
Import JsArray EditableList.

Lemma nth_error_replace {A} (l : list A) (index i : nat) (x : A) :
  index < length l ->
  nth_error (firstn index l ++ x :: skipn (S index) l) i
  = if i =? index then Some x else nth_error l i.
Proof.
  revert index i. induction l as [|y l IH]; intros index i H; simpl in H; [lia|].
  destruct index as [|k], i as [|j]; try reflexivity.
  change (nth_error (firstn k l ++ x :: skipn (S k) l) j
          = if j =? k then Some x else nth_error l j).
  apply IH. lia.
Qed.

Lemma filter_from_holes (p : slot -> nat -> bool) (i k : nat) (rest : array) :
  filter_from p i (repeat Hole k ++ rest) = filter_from p (i + k) rest.
Proof.
  revert i. induction k as [|k IH]; intros i; simpl.
  - now rewrite Nat.add_0_r.
  - rewrite IH. f_equal. lia.
Qed.

Lemma filter_from_strings_before (l : list string) (i index : nat) (rest : array) :
  i + length l <= index ->
  filter_from (fun _ j => negb (j =? index)) i (of_strings l ++ rest)
  = of_strings l ++ filter_from (fun _ j => negb (j =? index)) (i + length l) rest.
Proof.
  revert i. induction l as [|s l IH]; intros i H; simpl in *.
  - now rewrite Nat.add_0_r.
  - destruct (Nat.eqb_spec i index) as [E|_]; [lia|]. simpl.
    rewrite (IH (S i)) by lia.
    replace (i + S (length l)) with (S i + length l) by lia. reflexivity.
Qed.

Lemma filter_from_no_hole (p : slot -> nat -> bool) (i : nat) (a : array) :
  ~ In Hole (filter_from p i a) /\ length (filter_from p i a) <= length a.
Proof.
  revert i. induction a as [|x a IH]; intros i; simpl.
  - split; [intros [] | lia].
  - destruct (IH (S i)) as [N L]. destruct x as [| |s].
    + split; [exact N | lia].
    + destruct (p Undefined i); simpl; (split; [|lia]); [|exact N].
      intros [C|C]; [discriminate | now apply N].
    + destruct (p (Str s) i); simpl; (split; [|lia]); [|exact N].
      intros [C|C]; [discriminate | now apply N].
Qed.

(** X1: within the range an edit replaces the entry at its index and no
    other: the length stays, the entry at [index] is [value], every
    other entry is what it was. *)
Theorem edit_in_range_replaces_one (items : list string) (index : nat) (value : string) :
  index < length items ->
  length (handleItemChange (of_strings items) index value) = length items
  /\ forall i,
       nth_error (handleItemChange (of_strings items) index value) i
       = if i =? index then Some (Str value)
         else option_map Str (nth_error items i).
Proof.
  intros H. rewrite (EditableListFacts.handleItemChange_in_range items index value H).
  unfold of_strings. split.
  - rewrite length_map, length_app, length_firstn. cbn [length].
    rewrite length_skipn. lia.
  - intros i. rewrite nth_error_map, (nth_error_replace items index i value H).
    destruct (i =? index); reflexivity.
Qed.

Lemma edit_in_range_replaces_one_witness :
  nth_error (handleItemChange (of_strings ["a"; "b"; "c"]) 1 "x") 1 = Some (Str "x")
  /\ nth_error (handleItemChange (of_strings ["a"; "b"; "c"]) 1 "x") 2 = Some (Str "c").
Proof.
  destruct (edit_in_range_replaces_one ["a"; "b"; "c"] 1 "x") as [_ H];
    [simpl; lia|].
  split; [exact (H 1) | exact (H 2)].
Defined.

(** X2: two edits of one entry: the second value stays, as if the first edit
    had not been. *)
Theorem edit_twice_keeps_last (items : list string) (index : nat) (v1 v2 : string) :
  index < length items ->
  handleItemChange (handleItemChange (of_strings items) index v1) index v2
  = handleItemChange (of_strings items) index v2.
Proof.
  intros H.
  rewrite (EditableListFacts.handleItemChange_in_range items index v1 H).
  rewrite !EditableListFacts.handleItemChange_in_range;
    [|exact H | rewrite length_app, length_firstn; cbn [length]; rewrite length_skipn; lia].
  f_equal.
  rewrite firstn_app, length_firstn, firstn_firstn.
  replace (index - Nat.min index (length items)) with 0 by lia.
  replace (Nat.min index index) with index by lia.
  simpl firstn at 2. rewrite app_nil_r. f_equal. f_equal.
  rewrite skipn_app, length_firstn.
  replace (S index - Nat.min index (length items)) with 1 by lia.
  rewrite (skipn_all2 (firstn index items)) by (rewrite length_firstn; lia).
  reflexivity.
Qed.

Lemma edit_twice_keeps_last_witness :
  handleItemChange (handleItemChange (of_strings ["a"; "b"]) 0 "x") 0 "y"
  = of_strings ["y"; "b"].
Proof.
  rewrite (edit_twice_keeps_last ["a"; "b"] 0 "x" "y"); [reflexivity | simpl; lia].
Defined.

(** X3: a new row is a blank entry after the others; an edit of that row
    fills it, and its removal gives the sequence back. *)
Theorem add_appends_blank_row (items : list string) (value : string) :
  addItem (of_strings items) = of_strings (items ++ [""])
  /\ handleItemChange (addItem (of_strings items)) (length items) value
     = of_strings (items ++ [value])
  /\ removeItem (addItem (of_strings items)) (length items) = of_strings items.
Proof.
  rewrite EditableListFacts.addItem_strings. split; [reflexivity|]. split.
  - rewrite EditableListFacts.handleItemChange_in_range
      by (rewrite length_app; simpl; lia).
    rewrite firstn_app, Nat.sub_diag, firstn_all, skipn_app.
    replace (S (length items) - length items) with 1 by lia.
    rewrite skipn_all2 by lia. simpl. now rewrite app_nil_r.
  - unfold removeItem, JsArray.filter, of_strings. rewrite map_app.
    rewrite (filter_from_strings_before items 0 (length items)) by lia.
    simpl. rewrite Nat.eqb_refl. simpl. now rewrite app_nil_r.
Qed.

(** X4: removing at an index past the end changes nothing. *)
Theorem remove_past_end_keeps (items : list string) (index : nat) :
  length items <= index ->
  removeItem (of_strings items) index = of_strings items.
Proof.
  intros H. unfold removeItem, JsArray.filter.
  rewrite <- (app_nil_r (of_strings items)) at 1.
  rewrite (filter_from_strings_before items 0 index []) by lia.
  simpl. now rewrite app_nil_r.
Qed.

Lemma remove_past_end_keeps_witness :
  removeItem (of_strings ["a"; "b"]) 2 = of_strings ["a"; "b"].
Proof. apply (remove_past_end_keeps ["a"; "b"] 2). simpl. lia. Defined.

(** X5: a removal never leaves a hole and never lengthens the array, whatever
    the array holds. *)
Theorem remove_leaves_no_hole (a : array) (index : nat) :
  ~ In Hole (removeItem a index)
  /\ length (removeItem a index) <= length a.
Proof. apply filter_from_no_hole. Qed.

(** X6: after an edit past the end, the removal of the entry that edit wrote
    gives back the sequence of before the edit: the holes go with it. *)
Theorem remove_undoes_edit_past_end (items : list string) (index : nat)
  (value : string) :
  length items <= index ->
  removeItem (handleItemChange (of_strings items) index value) index
  = of_strings items.
Proof.
  intros H. unfold handleItemChange. rewrite EditableListFacts.spread_of_strings.
  assert (L : length (of_strings items) <= index)
    by (unfold of_strings; rewrite length_map; exact H).
  destruct (is_array_index index) eqn:I.
  2:{ rewrite (EditableListFacts.assign_no_index _ _ _ L I).
      unfold removeItem, JsArray.filter.
      rewrite <- (app_nil_r (of_strings items)) at 1.
      rewrite (filter_from_strings_before items 0 index []) by lia.
      simpl. now rewrite app_nil_r. }
  rewrite (EditableListFacts.assign_past_end _ _ _ L I).
  unfold removeItem, JsArray.filter.
  rewrite (filter_from_strings_before items 0 index) by lia.
  unfold of_strings at 2. rewrite length_map, filter_from_holes. simpl.
  replace (length items + (index - length items)) with index by lia.
  rewrite Nat.eqb_refl. simpl. now rewrite app_nil_r.
Qed.

Lemma remove_undoes_edit_past_end_witness :
  removeItem (handleItemChange (of_strings ["a"]) 3 "d") 3 = of_strings ["a"].
Proof.
  apply (remove_undoes_edit_past_end ["a"] 3 "d"). simpl. lia.
Defined.

End EditorFacts.

(* ===================================================================== *)
(** ** Further facts on the application *)
(* ===================================================================== *)

Module AppFacts.
Import Js Data App Spec Aux Notions AppView.

(** The four ways a submission runs. *)
Lemma handleSubmit_outcomes (w : world) (st : state) :
  handleSubmit w st
  = match preflight st, cvFile st with
    | Some MissingFile, _ =>
        [ToastError "Please upload your CV file before submitting";
         SetLoading false]
        ++ (if fileUploadElement w
            then [Dom ScrollIntoView;
                  Dom (ClassListAdd "validation-error");
                  SetTimeout (ClassListRemove "validation-error") 3000]
            else [])
    | Some NoJobTarget, _ =>
        [SetLoading true;
         SetLoadingMessage "Preparing your data...";
         ToastError "Please provide at least one job URL or description";
         SetLoading false]
    | Some MissingCredential, _ =>
        [SetLoading true;
         SetLoadingMessage "Preparing your data...";
         ToastError "API key is required";
         SetLoading false]
        ++ navigateTo w settings
    | None, Some file =>
        [SetLoading true;
         SetLoadingMessage "Preparing your data...";
         SetLoadingMessage "Analyzing your resume against job requirements...";
         Fetch (request_of st file)]
        ++ after_fetch (fetch w (request_of st file))
        ++ [SetLoading false; SetLoadingMessage ""]
    | None, None => []
    end.
Proof.
  destruct (preflight st) as [f|] eqn:Hp.
  - unfold preflight in Hp. unfold handleSubmit.
    destruct (cvFile st) eqn:Hf.
    + destruct (filter non_blank (jobUrls st)),
        (filter non_blank (jobDescriptions st));
        destruct (String.eqb (trim (apiKey st)) "");
        inversion Hp; subst; reflexivity.
    + inversion Hp; subst. reflexivity.
  - destruct (cvFile st) as [file|] eqn:Hf.
    + now apply SubmitFacts.handleSubmit_sends.
    + unfold preflight in Hp. rewrite Hf in Hp. discriminate.
Qed.

(** The same, as a case distinction. *)
Lemma handleSubmit_cases (w : world) (st : state) :
  (preflight st = Some MissingFile
   /\ handleSubmit w st
      = [ToastError "Please upload your CV file before submitting";
         SetLoading false]
        ++ (if fileUploadElement w
            then [Dom ScrollIntoView;
                  Dom (ClassListAdd "validation-error");
                  SetTimeout (ClassListRemove "validation-error") 3000]
            else []))
  \/ (preflight st = Some NoJobTarget
      /\ handleSubmit w st
         = [SetLoading true;
            SetLoadingMessage "Preparing your data...";
            ToastError "Please provide at least one job URL or description";
            SetLoading false])
  \/ (preflight st = Some MissingCredential
      /\ handleSubmit w st
         = [SetLoading true;
            SetLoadingMessage "Preparing your data...";
            ToastError "API key is required";
            SetLoading false]
           ++ navigateTo w settings)
  \/ (exists file,
        cvFile st = Some file /\ preflight st = None
        /\ handleSubmit w st
           = [SetLoading true;
              SetLoadingMessage "Preparing your data...";
              SetLoadingMessage "Analyzing your resume against job requirements...";
              Fetch (request_of st file)]
             ++ after_fetch (fetch w (request_of st file))
             ++ [SetLoading false; SetLoadingMessage ""]).
Proof.
  rewrite handleSubmit_outcomes.
  destruct (preflight st) as [[| |]|] eqn:Hp.
  - left. now split.
  - right; left. now split.
  - right; right; left. now split.
  - right; right; right. destruct (cvFile st) as [file|] eqn:Hf.
    + exists file. now repeat split.
    + unfold preflight in Hp. rewrite Hf in Hp. discriminate.
Qed.

Lemma sent_request (w : world) (st : state) (r : request) :
  In r (requests (handleSubmit w st)) ->
  exists file, cvFile st = Some file /\ preflight st = None /\ r = request_of st file.
Proof.
  intros Hin. rewrite handleSubmit_outcomes in Hin.
  destruct (preflight st) as [[| |]|] eqn:Hp.
  - destruct (fileUploadElement w); destruct Hin.
  - destruct Hin.
  - unfold navigateTo in Hin. destruct (innerWidth w <? 768)%Z; destruct Hin.
  - destruct (cvFile st) as [file|] eqn:Hf; [|destruct Hin].
    exists file. repeat split.
    destruct (fetch w (request_of st file)) as [e | [|] [e | [dt [evs|]] | ]];
      simpl in Hin; destruct Hin as [<- | []]; reflexivity.
Qed.

Lemma or_else_not_empty (s d : string) : d <> "" -> or_else s d <> "".
Proof.
  intros Hd. unfold or_else. destruct (String.eqb_spec s ""); assumption.
Qed.

(** X7: whatever the state and the world, a submission ends with [loading]
    false: the button of the form is enabled again and carries its
    resting text. *)
Theorem submit_ends_idle (w : world) (st : state) :
  let st' := run st (handleSubmit w st) in
  loading st' = false
  /\ disabled (submit_of (renderInputForm st')) = false
  /\ button_text (submit_of (renderInputForm st')) = "Evaluate My CV".
Proof.
  cbv zeta.
  assert (L : loading (run st (handleSubmit w st)) = false).
  { destruct (handleSubmit_cases w st)
      as [(_ & ->) | [(_ & ->) | [(_ & ->) | (file & _ & _ & ->)]]].
    - destruct (fileUploadElement w); destruct st; reflexivity.
    - destruct st; reflexivity.
    - unfold navigateTo. destruct (innerWidth w <? 768)%Z; destruct st; reflexivity.
    - destruct (fetch w (request_of st file)) as [e | [|] [e | [dt [evs|]] | ]];
        destruct st; reflexivity. }
  unfold renderInputForm. cbn [submit_of disabled button_text]. rewrite L.
  repeat split.
Qed.


(** X8: a submission never writes the file, the two lists or the key. *)
Theorem submit_keeps_inputs (w : world) (st : state) :
  inputs (run st (handleSubmit w st)) = inputs st.
Proof.
  destruct (handleSubmit_cases w st)
    as [(_ & ->) | [(_ & ->) | [(_ & ->) | (file & _ & _ & ->)]]].
  - destruct (fileUploadElement w); destruct st; reflexivity.
  - destruct st; reflexivity.
  - unfold navigateTo. destruct (innerWidth w <? 768)%Z; destruct st; reflexivity.
  - destruct (fetch w (request_of st file)) as [e | [|] [e | [dt [evs|]] | ]];
      destruct st; reflexivity.
Qed.

(** X9: a submission sends at most one request, and sends it before the
    handler first waits.  In the state that is rendered when the handler
    starts to wait for the answer [loading] is set, whatever it was: the
    button of the form is disabled and carries the text of the analysis;
    the inputs and the results are as the submission found them. *)
Theorem button_disabled_while_waiting (w : world) (st : state) :
  length (requests (handleSubmit w st)) <= 1
  /\ (preflight st = None ->
      let st' := while_waiting st (handleSubmit w st) in
      requests (before_await (handleSubmit w st)) = requests (handleSubmit w st)
      /\ loading st' = true
      /\ disabled (submit_of (renderInputForm st')) = true
      /\ button_text (submit_of (renderInputForm st'))
         = "Analyzing your resume against job requirements..."
      /\ inputs st' = inputs st
      /\ shown st' = shown st).
Proof.
  destruct (handleSubmit_cases w st)
    as [(C & ->) | [(C & ->) | [(C & ->) | (file & _ & _ & ->)]]].
  - split; [|congruence]. destruct (fileUploadElement w); simpl; auto.
  - split; [|congruence]. simpl; auto.
  - split; [|congruence]. unfold navigateTo.
    destruct (innerWidth w <? 768)%Z; simpl; auto.
  - split.
    + destruct (fetch w (request_of st file)) as [e | [|] [e | [dt [evs|]] | ]];
        simpl; auto.
    + intros _. cbv zeta. unfold while_waiting.
      cbn [before_await app].
      split.
      * destruct (fetch w (request_of st file)) as [e | [|] [e | [dt [evs|]] | ]];
          reflexivity.
      * destruct st; repeat split.
Qed.

Lemma button_disabled_while_waiting_witness :
  loading ready = false
  /\ loading (while_waiting ready
                (handleSubmit (answering (Rejected (Error "down"))) ready)) = true
  /\ button_text
       (submit_of
          (renderInputForm
             (while_waiting ready
                (handleSubmit (answering (Rejected (Error "down"))) ready))))
     = "Analyzing your resume against job requirements...".
Proof.
  destruct (button_disabled_while_waiting (answering (Rejected (Error "down"))) ready)
    as (_ & H).
  destruct (H eq_refl) as (_ & L & _ & T & _).
  split; [reflexivity|]. split; [exact L | exact T].
Defined.

(** X10: the request of a submission is a POST to the evaluation endpoint.  It
    carries the file of the state under [cv] and the key under [api_key],
    the key as it was typed, which is not blank; no name occurs twice
    among its entries. *)
Theorem request_shape (w : world) (st : state) (r : request) :
  In r (requests (handleSubmit w st)) ->
  url r = "http://localhost:8881/evaluate"
  /\ method r = "POST"
  /\ (exists file, cvFile st = Some file
                   /\ get (payload r) "cv" = Some (FileEntry file))
  /\ get (payload r) "api_key" = Some (StringEntry (apiKey st))
  /\ trim (apiKey st) <> ""
  /\ NoDup (entry_names (payload r)).
Proof.
  intros Hin. destruct (sent_request w st r Hin) as (file & Hf & Hp & ->).
  split; [reflexivity|]. split; [reflexivity|]. split; [|split; [|split]].
  - exists file. split; [exact Hf | reflexivity].
  - cbn [payload request_of]. unfold formData_of.
    destruct (filter non_blank (jobUrls st)),
      (filter non_blank (jobDescriptions st)); reflexivity.
  - unfold preflight in Hp. rewrite Hf in Hp.
    destruct (filter non_blank (jobUrls st)),
      (filter non_blank (jobDescriptions st)); try discriminate;
      destruct (String.eqb_spec (trim (apiKey st)) ""); try discriminate;
      assumption.
  - cbn [payload request_of]. unfold formData_of, entry_names.
    destruct (filter non_blank (jobUrls st)),
      (filter non_blank (jobDescriptions st)); simpl;
      repeat (constructor; [simpl; intuition discriminate|]); constructor.
Qed.

Lemma request_shape_witness :
  get (payload (request_of ready cv)) "api_key" = Some (StringEntry "sk-1")
  /\ entry_names (payload (request_of ready cv)) = ["cv"; "job_urls"; "api_key"].
Proof.
  destruct (request_shape (answering (Rejected (Error "down"))) ready
              (request_of ready cv)) as (_ & _ & _ & H & _);
    [left; reflexivity|].
  split; [exact H | reflexivity].
Defined.

(** X11: a submission that was sent and failed raises one notification, an
    error with a text that is never empty.  For a request without response
    or a body that is no JSON text it is the message of the error, or a
    fixed text when that message is empty.  For the body null it is the
    message of the error that the read of a member of null throws.  For
    any other body of a response that is not a success it goes by the
    member [detail]: a fixed text when the member is missing or falsy;
    else the text the member converts to (a string is its own text, an
    object converts to one text whatever it holds, an array to the texts
    of its elements between commas), the other fixed text when that text
    is empty, and the message of the error when the conversion throws. *)
Theorem failure_is_reported (w : world) (st : state) (res : fetch_result) :
  preflight st = None ->
  (forall r, In r (requests (handleSubmit w st)) -> fetch w r = res) ->
  failed res = true ->
  exists msg,
    toasts (handleSubmit w st) = [ToastError msg]
    /\ msg <> ""
    /\ match res with
       | Rejected e | Response _ (Malformed e) =>
           msg = if String.eqb (message e) ""
                 then "An error occurred during evaluation"
                 else message e
       | Response true JsonNull =>
           msg = "Cannot read properties of null (reading 'evaluations')"
       | Response false JsonNull =>
           msg = "Cannot read properties of null (reading 'detail')"
       | Response false (Json errorData) =>
           match detail errorData with
           | None => msg = "Failed to evaluate"
           | Some d =>
               if ToBoolean d then
                 match ToString d with
                 | Normal text =>
                     msg = if String.eqb text ""
                           then "An error occurred during evaluation"
                           else text
                 | Throw e =>
                     msg = if String.eqb (message e) ""
                           then "An error occurred during evaluation"
                           else message e
                 end
               else msg = "Failed to evaluate"
           end
       | Response true (Json _) => False
       end.
Proof.
  intros Hp Hres Hfail.
  destruct (handleSubmit_cases w st)
    as [(C & _) | [(C & _) | [(C & _) | (file & Hf & _ & E)]]];
    try congruence.
  assert (Hr : fetch w (request_of st file) = res).
  { apply Hres. rewrite (SubmitFacts.handleSubmit_requests w st file Hf Hp).
    now left. }
  rewrite E, Hr.
  assert (F : forall e,
             or_else (message e) "An error occurred during evaluation" <> "")
    by (intros e; now apply or_else_not_empty).
  destruct res as [e | [|] [e | errorData | ]]; try discriminate;
    try (eexists; split; [reflexivity|]; split; [apply F | reflexivity]).
  exists (or_else (message (caught false (Json errorData)))
            "An error occurred during evaluation").
  split; [reflexivity|]. split; [apply F|].
  unfold caught, or_text.
  destruct (detail errorData) as [d|]; [|reflexivity].
  destruct (ToBoolean d); [|reflexivity].
  destruct (ToString d); reflexivity.
Qed.

Lemma failure_is_reported_witness :
  let answer d :=
    answering (Response false (Json {| detail := d; evaluations_field := None |})) in
  toasts (handleSubmit (answer (Some (JString "quota exceeded"))) ready)
  = [ToastError "quota exceeded"]
  /\ toasts (handleSubmit (answer None) ready) = [ToastError "Failed to evaluate"]
  /\ toasts (handleSubmit (answer (Some (JArray []))) ready)
     = [ToastError "An error occurred during evaluation"]
  /\ toasts (handleSubmit
               (answer (Some (JArray [JObject ["loc"; "msg"]; JNull; JNumber "422"])))
               ready)
     = [ToastError "[object Object],,422"]
  /\ toasts (handleSubmit (answering (Response false JsonNull)) ready)
     = [ToastError "Cannot read properties of null (reading 'detail')"]
  /\ toasts (handleSubmit (answering (Rejected (TypeError ""))) ready)
     = [ToastError "An error occurred during evaluation"].
Proof.
  intros answer. subst answer. cbv beta.
  split; [|split; [|split; [|split; [|split]]]].
  - destruct (failure_is_reported (answering (Response false (Json {| detail := Some (JString "quota exceeded"); evaluations_field := None |}))) ready _
                eq_refl (fun r _ => eq_refl) eq_refl)
      as (msg & T & _ & M).
    rewrite T. cbn in M. rewrite M. reflexivity.
  - destruct (failure_is_reported (answering (Response false (Json {| detail := None; evaluations_field := None |}))) ready _
                eq_refl (fun r _ => eq_refl) eq_refl)
      as (msg & T & _ & M).
    rewrite T. cbn in M. rewrite M. reflexivity.
  - destruct (failure_is_reported (answering (Response false (Json {| detail := Some (JArray []); evaluations_field := None |}))) ready _
                eq_refl (fun r _ => eq_refl) eq_refl)
      as (msg & T & _ & M).
    rewrite T. cbn in M. rewrite M. reflexivity.
  - destruct (failure_is_reported (answering (Response false (Json {| detail := Some (JArray [JObject ["loc"; "msg"]; JNull; JNumber "422"]); evaluations_field := None |}))) ready _
                eq_refl (fun r _ => eq_refl) eq_refl)
      as (msg & T & _ & M).
    rewrite T. cbn in M. rewrite M. reflexivity.
  - destruct (failure_is_reported (answering (Response false JsonNull)) ready _
                eq_refl (fun r _ => eq_refl) eq_refl)
      as (msg & T & _ & M).
    rewrite T. cbn in M. rewrite M. reflexivity.
  - destruct (failure_is_reported (answering (Rejected (TypeError ""))) ready _
                eq_refl (fun r _ => eq_refl) eq_refl)
      as (msg & T & _ & M).
    rewrite T. cbn in M. rewrite M. reflexivity.
Defined.

(** X12: a submission depends on the two lists through their non-blank entries
    alone: with other lists that have the same non-blank entries, rows
    added, blank rows removed or filled with white space, the handler does
    the same. *)
Theorem blank_rows_do_not_count (w : world) (st : state) (urls descs : list string) :
  (exists sel, non_blank_entries (jobUrls st) sel /\ non_blank_entries urls sel) ->
  (exists sel, non_blank_entries (jobDescriptions st) sel
               /\ non_blank_entries descs sel) ->
  handleSubmit w (with_jobs urls descs st) = handleSubmit w st.
Proof.
  intros (su & U1 & U2) (sd & D1 & D2).
  assert (EU : filter non_blank urls = filter non_blank (jobUrls st)).
  { rewrite (FilterFacts.non_blank_entries_unique _ _ _
               (FilterFacts.filter_non_blank_entries urls) U2).
    symmetry.
    exact (FilterFacts.non_blank_entries_unique _ _ _
             (FilterFacts.filter_non_blank_entries (jobUrls st)) U1). }
  assert (ED : filter non_blank descs = filter non_blank (jobDescriptions st)).
  { rewrite (FilterFacts.non_blank_entries_unique _ _ _
               (FilterFacts.filter_non_blank_entries descs) D2).
    symmetry.
    exact (FilterFacts.non_blank_entries_unique _ _ _
             (FilterFacts.filter_non_blank_entries (jobDescriptions st)) D1). }
  unfold handleSubmit.
  cbn [with_jobs cvFile jobUrls jobDescriptions apiKey].
  rewrite EU, ED. reflexivity.
Qed.

Lemma blank_rows_do_not_count_witness :
  handleSubmit (answering (Rejected (Error "down")))
    (with_jobs ["http://a"; " "; ""] [] ready)
  = handleSubmit (answering (Rejected (Error "down"))) ready.
Proof.
  apply (blank_rows_do_not_count (answering (Rejected (Error "down"))) ready).
  - exists ["http://a"]. split.
    + exact (FilterFacts.filter_non_blank_entries (jobUrls ready)).
    + exact (FilterFacts.filter_non_blank_entries ["http://a"; " "; ""]).
  - exists []. split.
    + exact (FilterFacts.filter_non_blank_entries (jobDescriptions ready)).
    + exact (FilterFacts.filter_non_blank_entries []).
Defined.



(** X15: after a submission that the blank key stopped, the application shows
    the settings page with the key field, under the settings heading,
    whatever it showed before. *)
Theorem blank_key_opens_settings (w : world) (st : state) :
  preflight st = Some MissingCredential ->
  let st' := run st (handleSubmit w st) in
  renderPageContent st' = SettingsContent (apiKey st)
  /\ toolbar st' = ("Settings", false).
Proof.
  intros Hp. cbv zeta.
  destruct (handleSubmit_cases w st)
    as [(C & _) | [(C & _) | [(_ & ->) | (file & _ & C & _)]]];
    try congruence.
  unfold navigateTo. destruct (innerWidth w <? 768)%Z; destruct st; split; reflexivity.
Qed.

Lemma blank_key_opens_settings_witness :
  renderPageContent
    (run (with_key " " ready)
       (handleSubmit (answering (Rejected (Error "down"))) (with_key " " ready)))
  = SettingsContent " ".
Proof.
  apply (blank_key_opens_settings (answering (Rejected (Error "down")))
           (with_key " " ready)).
  reflexivity.
Defined.

(** X16: after a successful submission from the home page the application
    shows the results: nothing for an empty list, else the strip of tabs
    with the first one active and the details of the first result. *)
Theorem success_shows_first_result
  (w : world) (st : state) (data : body) (evs : list EvaluationResult) :
  preflight st = None ->
  activePage st = home ->
  (forall r, In r (requests (handleSubmit w st)) -> fetch w r = Response true (Json data)) ->
  evaluations_field data = Some evs ->
  renderPageContent (run st (handleSubmit w st))
  = ResultsContent
      match evs with
      | [] => EvaluationDetail.Rendered None
      | first :: _ =>
          EvaluationDetail.bind (EvaluationDetail.EvaluationDetail first)
            (fun content =>
               EvaluationDetail.Rendered
                 (Some {| EvaluationTabs.tab_headers := EvaluationTabs.buttons evs 0 0;
                          EvaluationTabs.tab_content := content |}))
      end.
Proof.
  intros Hp Hhome Hfetch Hevs.
  destruct (SubmitFacts.run_success w st data evs Hp Hfetch Hevs)
    as (E & T & V & _ & _).
  assert (P : activePage (run st (handleSubmit w st)) = home).
  { destruct (handleSubmit_cases w st)
      as [(C & _) | [(C & _) | [(C & _) | (file & Hf & _ & Es)]]];
      try congruence.
    rewrite Es.
    destruct (fetch w (request_of st file)) as [e | [|] [e | [dt [l|]] | ]];
      destruct st; simpl in *; exact Hhome. }
  unfold renderPageContent, renderEvaluationResults. rewrite P, V, E, T.
  unfold EvaluationTabs.EvaluationTabs. destruct evs; reflexivity.
Qed.

Lemma success_shows_first_result_witness :
  renderPageContent
    (run ready
       (handleSubmit
          (answering (Response true
                        (Json {| detail := None;
                                 evaluations_field := Some [engineer; analyst] |})))
          ready))
  = ResultsContent
      (EvaluationDetail.Rendered
         (Some {| EvaluationTabs.tab_headers :=
                    [{| EvaluationTabs.tab_label := "Engineer";
                        EvaluationTabs.active := true |};
                     {| EvaluationTabs.tab_label := "Analyst";
                        EvaluationTabs.active := false |}];
                  EvaluationTabs.tab_content := raw_view engineer |})).
Proof.
  rewrite (success_shows_first_result
             (answering (Response true
                           (Json {| detail := None;
                                    evaluations_field := Some [engineer; analyst] |})))
             ready _ [engineer; analyst] eq_refl eq_refl (fun r _ => eq_refl) eq_refl).
  reflexivity.
Defined.

End AppFacts.
(* ===================================================================== *)
(** ** Facts on the key field and on the file selector *)
(* ===================================================================== *)

Module KeyFacts.
Import Js Data ApiKeyInput.

(** X17: an edit of the key field writes the key to the application and to the
    store under the name apiKey, and no other name of the store; a page
    load that mounts the field afterwards finds the application with that
    key again, the empty key included. *)
Theorem key_survives_reload (sc : scene) (value : string) :
  let sc' := run sc (handleApiKeyChange value) in
  App.apiKey (app sc') = value
  /\ getItem (localStorage sc') "apiKey" = Some value
  /\ (forall name, name <> "apiKey" ->
        getItem (localStorage sc') name = getItem (localStorage sc) name)
  /\ App.apiKey (app (run (reloaded (localStorage sc'))
                        (mount (localStorage sc')))) = value.
Proof.
  cbv zeta. split; [reflexivity|]. split; [reflexivity|]. split.
  - intros name Hne. simpl. unfold getItem, setItem.
    destruct (String.eqb_spec name "apiKey"); [contradiction | reflexivity].
  - simpl. unfold mount, getItem, setItem. simpl.
    destruct (String.eqb_spec value "") as [->|_]; reflexivity.
Qed.

Lemma key_survives_reload_witness :
  getItem (localStorage
             (run (reloaded (setItem empty_storage "theme" "dark"))
                (handleApiKeyChange "sk-3"))) "theme" = Some "dark"
  /\ App.apiKey
       (app (run (reloaded (setItem empty_storage "apiKey" "sk-3"))
               (mount (setItem empty_storage "apiKey" "sk-3")))) = "sk-3".
Proof.
  destruct (key_survives_reload (reloaded (setItem empty_storage "theme" "dark"))
              "sk-3") as (_ & _ & H & _).
  split; [apply H; discriminate | reflexivity].
Defined.

(** The mount of the field never blanks a key: with no stored key, or an
    empty one, the application keeps the key it has; and it never writes
    the store. *)
Theorem mount_keeps_key_without_store (sc : scene) :
  (getItem (localStorage sc) "apiKey" = None
   \/ getItem (localStorage sc) "apiKey" = Some "") ->
  run sc (mount (localStorage sc)) = sc.
Proof.
  unfold mount. intros [-> | ->]; reflexivity.
Qed.

Lemma mount_keeps_key_without_store_witness :
  App.apiKey (app (run {| app := Aux.ready; showApiKey := false;
                          localStorage := empty_storage |}
                     (mount empty_storage))) = "sk-1".
Proof.
  pose proof (mount_keeps_key_without_store
                {| app := Aux.ready; showApiKey := false;
                   localStorage := empty_storage |}
                (or_introl eq_refl)) as H.
  cbn [localStorage] in H. rewrite H. reflexivity.
Defined.

(** X18: a key that was stored reaches a fresh application only when the key
    field mounts: before, a submission with a file and a job target stops
    at the credential check; after, the three checks pass. *)
Theorem stored_key_needs_mount (s : storage) (key : string) (st : App.state) :
  getItem s "apiKey" = Some key ->
  App.non_blank key = true ->
  Spec.preflight st = Some Spec.MissingCredential ->
  let sc := {| app := st; showApiKey := false; localStorage := s |} in
  Spec.preflight (app (run sc (mount s))) = None.
Proof.
  intros Hk Hnb Hp. cbv zeta. unfold mount. rewrite Hk.
  assert (Hne : String.eqb key "" = false).
  { destruct (String.eqb_spec key "") as [->|]; [discriminate | reflexivity]. }
  rewrite Hne. simpl. unfold Spec.preflight in *. simpl.
  destruct (App.cvFile st); [|discriminate].
  unfold App.non_blank in Hnb.
  destruct (filter App.non_blank (App.jobUrls st)),
    (filter App.non_blank (App.jobDescriptions st)); try discriminate;
    destruct (String.eqb (trim key) ""); try discriminate; reflexivity.
Qed.

Lemma stored_key_needs_mount_witness :
  Spec.preflight
    (app (run {| app := Aux.with_key "" Aux.ready; showApiKey := false;
                 localStorage := setItem empty_storage "apiKey" "sk-2" |}
            (mount (setItem empty_storage "apiKey" "sk-2")))) = None.
Proof.
  apply (stored_key_needs_mount (setItem empty_storage "apiKey" "sk-2") "sk-2"
           (Aux.with_key "" Aux.ready)); reflexivity.
Defined.

(** The eye button changes how the key is shown and nothing else: not the
    key, not the store; two clicks hide the key again. *)
Theorem toggleVisibility_only_shows (sc : scene) :
  let sc' := run sc (toggleVisibility sc) in
  app sc' = app sc
  /\ localStorage sc' = localStorage sc
  /\ input_type sc' = (if showApiKey sc then "password" else "text")
  /\ run sc' (toggleVisibility sc') = sc.
Proof.
  cbv zeta. destruct sc as [a [|] s]; repeat split.
Qed.

End KeyFacts.

Module SelectorFacts.
Import Js Data App FileSelector.

(** X19: a selection in the picker and a drop of the same files do the same to
    the application: the first file is held, the others are ignored, and
    the selector shows its name without the reminder. *)
Theorem pick_and_drop_hold_first_file
  (f : File) (others : list File) (st : state) (fu : FileUpload.state) :
  let '(st1, fu1, c1) := pick (Some (f :: others)) st fu in
  let '(st2, fu2, c2) := drop (Some (f :: others)) st fu in
  cvFile st1 = Some f
  /\ st2 = st1
  /\ c1 = Normal tt /\ c2 = Normal tt
  /\ FileUpload.fileName fu1 = name f /\ FileUpload.fileName fu2 = name f
  /\ FileUpload.showReminder fu1 = false /\ FileUpload.showReminder fu2 = false
  /\ FileUpload.dragActive fu2 = false
  /\ Spec.preflight st1 <> Some Spec.MissingFile.
Proof.
  destruct st, fu; simpl. repeat split. unfold Spec.preflight. simpl.
  destruct (filter non_blank jobUrls0), (filter non_blank jobDescriptions0);
    try discriminate; destruct (String.eqb (Js.trim apiKey0) ""); discriminate.
Qed.

(** X20: a selection or a drop without a file never reaches the application:
    the callback is not called, nothing throws, the file held stays. *)
Theorem empty_selection_is_ignored (fs : files) (st : state) (fu : FileUpload.state) :
  fs = None \/ fs = Some [] ->
  pick fs st fu = (st, fu, Normal tt)
  /\ fst (drop fs st fu) = (st, FileUpload.run fu [FileUpload.SetDragActive false])
  /\ snd (drop fs st fu) = Normal tt.
Proof.
  intros [-> | ->]; repeat split.
Qed.

Lemma empty_selection_is_ignored_witness :
  fst (fst (pick (Some []) Aux.ready
              {| FileUpload.dragActive := false; FileUpload.fileName := "cv.pdf";
                 FileUpload.showReminder := false |})) = Aux.ready.
Proof.
  destruct (empty_selection_is_ignored (Some []) Aux.ready
              {| FileUpload.dragActive := false; FileUpload.fileName := "cv.pdf";
                 FileUpload.showReminder := false |}) as [H _];
    [right; reflexivity|].
  rewrite H. reflexivity.
Defined.

End SelectorFacts.

(* ===================================================================== *)
(** ** Further facts on the renderer and on the tabs *)
(* ===================================================================== *)

Module FenceFacts.
Import Js Data Json EvaluationDetail Notions.

Lemma prefix_cons (a : ascii) (p : string) (c : ascii) (t : string) :
  String.prefix (String a p) (String c t) = Ascii.eqb c a && String.prefix p t.
Proof.
  simpl. destruct (ascii_dec a c) as [<- | N].
  - now rewrite Ascii.eqb_refl.
  - destruct (Ascii.eqb_spec c a); [congruence | reflexivity].
Qed.

Lemma prefix_empty (s : string) : String.prefix "" s = true.
Proof. now destruct s. Qed.

Lemma prefix_tick (p : string) (c : ascii) (t : string) :
  String.prefix (String tick p) (String c t) = Ascii.eqb c tick && String.prefix p t.
Proof. apply prefix_cons. Qed.

Lemma starts_with_fence_lead (s : string) :
  starts_with fence s = true <-> 3 <= lead s.
Proof.
  unfold starts_with. change fence with (String tick (String tick (String tick ""))).
  destruct s as [|a s]; [simpl; split; [discriminate | lia]|].
  rewrite prefix_tick. cbn [lead]. destruct (Ascii.eqb a tick);
    [|simpl; split; [discriminate | lia]].
  destruct s as [|b s]; [simpl; split; [discriminate | lia]|].
  rewrite prefix_tick. cbn [lead]. destruct (Ascii.eqb b tick);
    [|simpl; split; [discriminate | lia]].
  destruct s as [|c s]; [simpl; split; [discriminate | lia]|].
  rewrite prefix_tick, prefix_empty. cbn [lead]. destruct (Ascii.eqb c tick);
    simpl; split; try discriminate; try lia; reflexivity.
Qed.

Lemma starts_with_json_fence (s : string) :
  starts_with (fence ++ "json") s = true -> starts_with fence s = true.
Proof.
  unfold starts_with.
  change (fence ++ "json")%string
    with (String tick (String tick (String tick "json"))).
  change fence with (String tick (String tick (String tick ""))).
  intros H.
  destruct s as [|a s]; [discriminate|]. rewrite prefix_tick in *.
  destruct (Ascii.eqb a tick); [|discriminate]. cbn [andb] in *.
  destruct s as [|b s]; [discriminate|]. rewrite prefix_tick in *.
  destruct (Ascii.eqb b tick); [|discriminate]. cbn [andb] in *.
  destruct s as [|c s]; [discriminate|]. rewrite prefix_tick in *.
  destruct (Ascii.eqb c tick); [|discriminate]. cbn [andb] in *.
  apply prefix_empty.
Qed.

(** A character that is no backquote stays where it is. *)
Lemma remove_fences_keeps (c : ascii) (t : string) :
  Ascii.eqb c tick = false ->
  remove_fences 0 (String c t) = String c (remove_fences 0 t).
Proof.
  intros H. cbn [remove_fences].
  assert (F : starts_with fence (String c t) = false).
  { destruct (starts_with fence (String c t)) eqn:E; [|reflexivity].
    apply starts_with_fence_lead in E. simpl in E. rewrite H in E. lia. }
  destruct (starts_with (fence ++ "json") (String c t)) eqn:J.
  - apply starts_with_json_fence in J. congruence.
  - rewrite F. reflexivity.
Qed.

Lemma remove_fences_plain (body rest : string) :
  has_tick body = false ->
  remove_fences 0 (body ++ rest) = (body ++ remove_fences 0 rest)%string.
Proof.
  induction body as [|c body IH]; intros H; [reflexivity|].
  simpl in H. apply orb_false_iff in H as [Hc Hb].
  change (String c body ++ rest)%string with (String c (body ++ rest)).
  rewrite (remove_fences_keeps c _ Hc), (IH Hb). reflexivity.
Qed.

Lemma remove_fences_opening (rest : string) :
  remove_fences 0 (fence ++ "json" ++ rest) = remove_fences 0 rest.
Proof.
  change (fence ++ "json" ++ rest)%string
    with (String tick (String tick (String tick
            (String "j" (String "s" (String "o" (String "n" rest))))))).
  assert (H : starts_with (fence ++ "json")
                (String tick (String tick (String tick
                   (String "j" (String "s" (String "o" (String "n" rest)))))))
              = true).
  { unfold starts_with.
    change (fence ++ "json")%string
      with (String tick (String tick (String tick "json"))).
    rewrite !prefix_cons, prefix_empty. reflexivity. }
  cbn [remove_fences]. rewrite H. reflexivity.
Qed.

Lemma append_empty (s : string) : (s ++ "")%string = s.
Proof. induction s as [|c s IH]; simpl; [reflexivity | now rewrite IH]. Qed.

(** X21: a text without a backquote, wrapped in the opening fence with the word
    json and in the closing fence, is read as the text alone. *)
Theorem fenced_text_is_unwrapped (body : string) :
  has_tick body = false ->
  remove_fences 0 (fence ++ "json" ++ body ++ fence) = body
  /\ jsonString (fence ++ "json" ++ body ++ fence) = jsonString body
  /\ scoreData_of_text (fence ++ "json" ++ body ++ fence) = scoreData_of_text body.
Proof.
  intros H.
  assert (E : remove_fences 0 (fence ++ "json" ++ body ++ fence) = body).
  { rewrite remove_fences_opening, (remove_fences_plain body fence H).
    change (remove_fences 0 fence) with "". apply append_empty. }
  assert (P : remove_fences 0 body = body).
  { rewrite <- (append_empty body) at 1.
    rewrite (remove_fences_plain body "" H). apply append_empty. }
  split; [exact E|].
  unfold scoreData_of_text, scoreData, jsonString. cbn [score_and_explanation].
  rewrite E, P. split; reflexivity.
Qed.

Lemma fenced_text_is_unwrapped_witness :
  jsonString (fence ++ "json" ++ " {} " ++ fence) = "{}".
Proof.
  destruct (fenced_text_is_unwrapped " {} " eq_refl) as (_ & H & _).
  rewrite H. reflexivity.
Defined.

Lemma remove_fences_kept (c : ascii) (t : string) :
  starts_with fence (String c t) = false ->
  remove_fences 0 (String c t) = String c (remove_fences 0 t).
Proof.
  intros F. cbn [remove_fences].
  destruct (starts_with (fence ++ "json") (String c t)) eqn:J.
  - apply starts_with_json_fence in J. congruence.
  - rewrite F. reflexivity.
Qed.

Lemma not_fence_lead (s : string) : starts_with fence s = false <-> lead s < 3.
Proof.
  split; intros H.
  - destruct (Nat.le_gt_cases 3 (lead s)) as [L|L]; [|exact L].
    apply starts_with_fence_lead in L. congruence.
  - destruct (starts_with fence s) eqn:E; [|reflexivity].
    apply starts_with_fence_lead in E. lia.
Qed.

Lemma lead_no_tick (t : string) : lead t = 0 -> lead (remove_fences 0 t) = 0.
Proof.
  destruct t as [|c t]; [reflexivity|]. cbn [lead].
  destruct (Ascii.eqb c tick) eqn:E; [discriminate|]. intros _.
  rewrite (remove_fences_keeps c t E). cbn [lead]. now rewrite E.
Qed.

Lemma lead_one_tick (t : string) : lead t <= 1 -> lead (remove_fences 0 t) <= 1.
Proof.
  intros H. destruct (lead t) as [|[|n]] eqn:L; try lia.
  - rewrite (lead_no_tick t L). lia.
  - destruct t as [|c t]; [discriminate|]. cbn [lead] in L.
    destruct (Ascii.eqb c tick) eqn:E; [|discriminate].
    assert (F : starts_with fence (String c t) = false).
    { apply not_fence_lead. cbn [lead]. rewrite E. lia. }
    rewrite (remove_fences_kept c t F). cbn [lead]. rewrite E.
    rewrite (lead_no_tick t); lia.
Qed.

Lemma no_fence_left (s : string) (skip : nat) :
  contains_fence (remove_fences skip s) = false.
Proof.
  revert skip. induction s as [|c t IH]; intros skip; [now destruct skip|].
  destruct skip as [|k]; [|apply IH].
  cbn [remove_fences].
  destruct (starts_with (fence ++ "json") (String c t)); [apply IH|].
  destruct (starts_with fence (String c t)) eqn:F; [apply IH|].
  cbn [contains_fence]. rewrite IH, orb_false_r.
  apply not_fence_lead. apply not_fence_lead in F. cbn [lead] in *.
  destruct (Ascii.eqb c tick); [|lia].
  pose proof (lead_one_tick t). lia.
Qed.

(** X22: whatever the payload, no fence is left in the text handed on: every
    run of three backquotes is gone. *)
Theorem fences_are_all_removed (text : string) :
  contains_fence (remove_fences 0 text) = false.
Proof. apply no_fence_left. Qed.

End FenceFacts.

Module DetailFacts.
Import Js Data Json EvaluationDetail Notions.

(** X23: a payload that parses to an object with a numeric overall score, three
    sections that each hold a numeric score and a text, and a text as
    summary is rendered without a crash: the label and the classes are the
    bands of the scores against 100, 40, 40 and 20.  Other members of the
    object do not matter. *)
Theorem breakdown_is_rendered
  (evaluation : EvaluationResult) (e k p : value)
  (o s1 s2 s3 : float) (t1 t2 t3 tw : units) :
  prop (scoreData evaluation) "overall_score" = Normal (VNum o) ->
  prop (scoreData evaluation) "experience" = Normal e -> is_section e s1 t1 ->
  prop (scoreData evaluation) "skills" = Normal k -> is_section k s2 t2 ->
  prop (scoreData evaluation) "personality" = Normal p -> is_section p s3 t3 ->
  prop (scoreData evaluation) "overall_explanation" = Normal (VStr tw) ->
  EvaluationDetail evaluation
  = Rendered (view_with evaluation
                (ScoreDetails (breakdown_view o s1 s2 s3 t1 t2 t3 tw))).
Proof.
  intros Ho He [He1 He2] Hk [Hk1 Hk2] Hp [Hp1 Hp2] Hw.
  unfold EvaluationDetail.
  assert (T : truthy (scoreData evaluation) = true).
  { destruct (scoreData evaluation); try discriminate; reflexivity. }
  rewrite T. unfold details, card.
  repeat (first [rewrite Ho | rewrite He | rewrite Hk | rewrite Hp | rewrite Hw
                | rewrite He1 | rewrite He2 | rewrite Hk1 | rewrite Hk2
                | rewrite Hp1 | rewrite Hp2];
          cbn [of_completion bind to_number]).
  reflexivity.
Qed.

Lemma breakdown_is_rendered_witness :
  exists d,
    EvaluationDetail (Spec.with_payload Aux.fenced_payload Aux.engineer)
    = Rendered (view_with (Spec.with_payload Aux.fenced_payload Aux.engineer)
                  (ScoreDetails d))
    /\ label_text d = "Excellent".
Proof.
  eexists. split.
  - apply (breakdown_is_rendered
             (Spec.with_payload Aux.fenced_payload Aux.engineer)
             (VObj [(units_of_string "score", VNum 35);
                    (units_of_string "explanation", VStr (units_of_string "x"))])
             (VObj [(units_of_string "score", VNum 32);
                    (units_of_string "explanation", VStr (units_of_string "y"))])
             (VObj [(units_of_string "score", VNum 18);
                    (units_of_string "explanation", VStr (units_of_string "z"))])
             85%float 35%float 32%float 18%float
             (units_of_string "x") (units_of_string "y") (units_of_string "z")
             (units_of_string "w"));
      try (split; vm_compute; reflexivity); vm_compute; reflexivity.
  - reflexivity.
Defined.

(** X24: a payload that parses to a value that is not falsy and not an object,
    a number other than zero, the literal true, a string that is not empty
    or an array, crashes the renderer: the score of its missing experience
    section is read. *)
Theorem scalar_payload_crashes (evaluation : EvaluationResult) :
  truthy (scoreData evaluation) = true ->
  (forall members, scoreData evaluation <> VObj members) ->
  EvaluationDetail evaluation
  = Crashed (TypeError "Cannot read properties of undefined (reading 'score')").
Proof.
  intros T N. unfold EvaluationDetail. rewrite T.
  destruct (scoreData evaluation) as [| |b|f|s|l|ms]; try discriminate;
    try reflexivity.
  now destruct (N ms).
Qed.

Lemma scalar_payload_crashes_witness :
  EvaluationDetail (Spec.with_payload "[1, 2]" Aux.engineer)
  = Crashed (TypeError "Cannot read properties of undefined (reading 'score')").
Proof.
  apply (scalar_payload_crashes (Spec.with_payload "[1, 2]" Aux.engineer)).
  - reflexivity.
  - intros members. vm_compute. discriminate.
Defined.

(** X25: an object whose overall score is a number or missing and whose
    experience section is missing or null crashes the renderer in the same
    way. *)
Theorem missing_section_crashes
  (evaluation : EvaluationResult) (o section : value) (n : float) :
  truthy (scoreData evaluation) = true ->
  prop (scoreData evaluation) "overall_score" = Normal o ->
  to_number o = Rendered n ->
  prop (scoreData evaluation) "experience" = Normal section ->
  section = VUndefined \/ section = VNull ->
  exists msg, EvaluationDetail evaluation = Crashed (TypeError msg).
Proof.
  intros T Ho Hn He Hs. unfold EvaluationDetail. rewrite T.
  unfold details. rewrite Ho. cbn [of_completion bind]. rewrite Hn.
  cbn [bind]. rewrite He. cbn [of_completion bind].
  destruct Hs as [-> | ->]; eexists; reflexivity.
Qed.

Lemma missing_section_crashes_witness :
  exists msg, EvaluationDetail Aux.analyst = Crashed (TypeError msg).
Proof.
  apply (missing_section_crashes Aux.analyst VUndefined VUndefined nan);
    try reflexivity.
  now left.
Defined.

End DetailFacts.

Module TabFacts.
Import Js Data EvaluationDetail EvaluationTabs Notions.

Lemma buttons_from (evaluations : list EvaluationResult) (activeTab index : nat) :
  length (buttons evaluations activeTab index) = length evaluations
  /\ map tab_label (buttons evaluations activeTab index) = map job_title evaluations
  /\ active_buttons (buttons evaluations activeTab index)
     = (if (index <=? activeTab) && (activeTab <? index + length evaluations)
        then 1 else 0)
  /\ forall i b, nth_error (buttons evaluations activeTab index) i = Some b ->
                 active b = (activeTab =? index + i).
Proof.
  revert index. induction evaluations as [|e l IH]; intros index.
  - simpl. repeat split.
    + unfold active_buttons. simpl.
      destruct (Nat.leb_spec index activeTab), (Nat.ltb_spec activeTab (index + 0));
        simpl; try reflexivity; lia.
    + intros [|i] b; discriminate.
  - destruct (IH (S index)) as (L & M & A & N). cbn [buttons length map].
    split; [now rewrite L|]. split; [now rewrite M|]. split.
    + unfold active_buttons in *. cbn [filter active].
      destruct (Nat.eqb_spec activeTab index) as [->|Hne]; cbn [length]; rewrite A.
      * destruct (Nat.leb_spec (S index) index), (Nat.leb_spec index index),
          (Nat.ltb_spec index (S index + length l)),
          (Nat.ltb_spec index (index + S (length l)));
          simpl; try reflexivity; lia.
      * destruct (Nat.leb_spec (S index) activeTab), (Nat.leb_spec index activeTab),
          (Nat.ltb_spec activeTab (S index + length l)),
          (Nat.ltb_spec activeTab (index + S (length l)));
          simpl; try reflexivity; lia.
    + intros [|i] b H; simpl in H.
      * injection H as <-. simpl. now rewrite Nat.add_0_r.
      * rewrite (N i b H). f_equal. lia.
Qed.

(** X26: the strip of tabs has one button per result, labelled with the titles
    in their order; the button at the focused index is the only active
    one, and no button is active when that index is past the end. *)
Theorem one_tab_is_active (evaluations : list EvaluationResult) (activeTab : nat) :
  let bs := buttons evaluations activeTab 0 in
  length bs = length evaluations
  /\ map tab_label bs = map job_title evaluations
  /\ active_buttons bs = (if activeTab <? length evaluations then 1 else 0)
  /\ forall i b, nth_error bs i = Some b -> active b = (activeTab =? i).
Proof.
  cbv zeta. destruct (buttons_from evaluations activeTab 0) as (L & M & A & N).
  repeat split; auto.
Qed.

Lemma one_tab_is_active_witness :
  active_buttons (buttons [Aux.engineer; Aux.analyst; Aux.analyst] 2 0) = 1
  /\ active_buttons (buttons [Aux.engineer; Aux.analyst] 2 0) = 0.
Proof.
  split.
  - destruct (one_tab_is_active [Aux.engineer; Aux.analyst; Aux.analyst] 2)
      as (_ & _ & H & _). exact H.
  - destruct (one_tab_is_active [Aux.engineer; Aux.analyst] 2)
      as (_ & _ & H & _). exact H.
Defined.

(** X27: with a focused index past the end of a collection that is not empty
    the tabs crash: the title of a result that does not exist is read.  An
    empty collection renders nothing, whatever the index. *)
Theorem tab_index_past_end_crashes
  (evaluations : list EvaluationResult) (activeTab : nat) :
  evaluations <> [] ->
  length evaluations <= activeTab ->
  EvaluationTabs evaluations activeTab
  = Crashed (TypeError "Cannot read properties of undefined (reading 'job_title')")
  /\ EvaluationTabs [] activeTab = Rendered None.
Proof.
  intros Hne Hle. split; [|reflexivity]. unfold EvaluationTabs.
  destruct evaluations as [|e l]; [contradiction|]. cbn [length Nat.eqb].
  apply nth_error_None in Hle. rewrite Hle. reflexivity.
Qed.

Lemma tab_index_past_end_crashes_witness :
  EvaluationTabs [Aux.engineer] 1
  = Crashed (TypeError "Cannot read properties of undefined (reading 'job_title')").
Proof.
  apply (tab_index_past_end_crashes [Aux.engineer] 1); [discriminate | simpl; lia].
Defined.

(** X28: a click on a tab of the strip focuses a result that exists: the tabs
    then render that result, crash or not as its own details do, and the
    submission results are not touched. *)
Theorem selected_tab_is_rendered
  (st : App.state) (index : nat) (evaluation : EvaluationResult) :
  nth_error (App.evaluations st) index = Some evaluation ->
  let st' := App.run st (AppView.selectTab index) in
  App.evaluations st' = App.evaluations st
  /\ App.activeTab st' = index
  /\ AppView.renderEvaluationResults st'
     = bind (EvaluationDetail evaluation)
         (fun content =>
            Rendered (Some {| tab_headers := buttons (App.evaluations st) index 0;
                              tab_content := content |})).
Proof.
  intros H. cbv zeta. unfold AppView.renderEvaluationResults, EvaluationTabs.
  destruct st as [cv urls descs key evs tab ld msg side pg vw]. simpl in *.
  split; [reflexivity|]. split; [reflexivity|].
  rewrite H. destruct evs; [destruct index; discriminate | reflexivity].
Qed.

Lemma selected_tab_is_rendered_witness :
  AppView.renderEvaluationResults
    (App.run (App.run Aux.ready [App.SetEvaluations [Aux.analyst; Aux.engineer]])
       (AppView.selectTab 1))
  = Rendered (Some {| tab_headers := [{| tab_label := "Analyst"; active := false |};
                                      {| tab_label := "Engineer"; active := true |}];
                      tab_content := Spec.raw_view Aux.engineer |}).
Proof.
  destruct (selected_tab_is_rendered
              (App.run Aux.ready [App.SetEvaluations [Aux.analyst; Aux.engineer]])
              1 Aux.engineer eq_refl) as (_ & _ & H).
  rewrite H. reflexivity.
Defined.

End TabFacts.
